(** * LSM6DSV16X sensor-fusion driver: a shallow embedding

    The development follows [adafruit_lsm6ds/lsm6dsv16x.py].  The driver
    talks to the sensor through register descriptors of the
    [adafruit_register] package ([RWBit], [RWBits], [ROBits], [Struct]);
    every descriptor access is one or two transactions on an I2C device.
    The device is an interface ([I2CDevice]); the driver is a program in a
    state-and-exception monad whose state holds the device, the list of
    the bus transactions attempted so far and the lines printed. *)

From Stdlib Require Import String.
From Stdlib Require Import ZArith List Lia Bool.
From Stdlib Require Import Init.Byte Strings.Byte.
Import ListNotations.
Local Open Scope Z_scope.

(** ** Bytes *)

(** A [bytearray] cell read as a Python int. *)
Definition byte_to_Z (b : byte) : Z := Z.of_N (Byte.to_N b).

(** A Python int in 0..255 stored into a [bytearray] cell. *)
Definition byte_of_Z (z : Z) : byte :=
match Byte.of_N (Z.to_N z) with
| Some b => b
| None => x00
end.

(** ** Exceptions and results *)

(** [OSError] is what the I2C layer raises when a transaction fails;
    [IndexError] is what indexing a [bytearray] out of range raises;
    [RuntimeError] stands for a fault signalled by the program itself.
    Every exception other than [OSError] is a programming-error fault. *)
Inductive exn : Type :=
| OSError
| IndexError
| RuntimeError.

Inductive result (A : Type) : Type :=
| Ok (a : A)
| Raise (e : exn).
Arguments Ok {A} a.
Arguments Raise {A} e.

(** ** The I2C device *)

(** [i2c.write_then_readinto(buffer, buffer, out_end=1, in_start=1)] sends
    the register address and reads as many bytes as the buffer has left:
    the master fixes the count, the device supplies byte [i] of the
    answer.  [i2c.write(buffer)] sends the address followed by the data
    bytes.  Either may fail ([None], [false]): the I2C layer then raises
    [OSError]. *)
Class I2CDevice (D : Type) : Type := {
  write_then_readinto : D -> Z -> nat -> D * option (nat -> byte);
  write : D -> Z -> list byte -> D * bool
}.

(** A transaction attempted on the bus; failed attempts are recorded too. *)
Inductive BusEvent : Type :=
| EvRead (register_address : Z) (count : nat)
| EvWrite (register_address : Z) (data : list byte).

(** What [print] writes. *)
Inductive PyVal : Type :=
| VInt (n : Z)
| VTuple (items : list Z).

(** ** The driver monad *)

(** The state a driver call runs in: the device, the transactions
    attempted so far (oldest first) and what was printed. *)
Record World (D : Type) : Type := mkWorld {
  device : D;
  bus_log : list BusEvent;
  stdout : list (string * PyVal)
}.
Arguments mkWorld {D} _ _ _.
Arguments device {D} _.
Arguments bus_log {D} _.
Arguments stdout {D} _.

(** A Python call: it returns or raises, and changes the world either way. *)
Definition M (D A : Type) : Type := World D -> result A * World D.

Definition ret {D A} (a : A) : M D A := fun w => (Ok a, w).

(** Sequencing of statements: an exception skips everything after it. *)
Definition bind {D A B} (m : M D A) (k : A -> M D B) : M D B :=
fun w =>
  match m w with
  | (Ok a, w') => k a w'
  | (Raise e, w') => (Raise e, w')
  end.

Definition raise {D A} (e : exn) : M D A := fun w => (Raise e, w).

Declare Scope driver_scope.
Delimit Scope driver_scope with driver.
Notation "x <- m ;; k" := (bind m (fun x => k))
  (at level 61, m at next level, right associativity) : driver_scope.
Notation "m ;;; k" := (bind m (fun _ => k))
  (at level 61, right associativity) : driver_scope.
Local Open Scope driver_scope.

Definition bus_read {D} `{I2CDevice D} (addr : Z) (count : nat) : M D (list byte) :=
fun w =>
  let '(d', r) := write_then_readinto (device w) addr count in
  let w' := mkWorld d' (bus_log w ++ [EvRead addr count]) (stdout w) in
  match r with
  | Some f => (Ok (map f (seq 0 count)), w')
  | None => (Raise OSError, w')
  end.

Definition bus_write {D} `{I2CDevice D} (addr : Z) (data : list byte) : M D unit :=
fun w =>
  let '(d', acked) := write (device w) addr data in
  (if acked then Ok tt else Raise OSError,
   mkWorld d' (bus_log w ++ [EvWrite addr data]) (stdout w)).

Definition print {D} (label : string) (v : PyVal) : M D unit :=
fun w => (Ok tt, mkWorld (device w) (bus_log w) (stdout w ++ [(label, v)])).

(** A call whose only exception is the bus's. *)
Definition only_OSError {D A} (m : M D A) : Prop :=
forall w e w', m w = (Raise e, w') -> e = OSError.



(** ** Register descriptors of [adafruit_register]

    The descriptors keep a [bytearray] whose cell 0 is the register
    address and whose other cells receive the register's bytes.  Below a
    buffer is the list of those other cells: cell [i + 1] of the Python
    buffer is element [i].  Only the default [lsb_first=True] and
    [signed=False] are modelled: the driver never passes them. *)

(** [buffer[i] = v] on the data cells. *)
Fixpoint set_cell (buffer : list byte) (i : nat) (v : byte) : option (list byte) :=
match buffer, i with
| [], _ => None
| _ :: rest, O => Some (v :: rest)
| b :: rest, S j =>
    match set_cell rest j v with
    | Some rest' => Some (b :: rest')
    | None => None
    end
end.

(** *** [i2c_bit.RWBit] *)

Record RWBit : Type := mkRWBit {
  bit_register_address : Z;
  bit_number : nat;
  bit_register_width : nat
}.

(** [RWBit(register_address, bit)], with [register_width=1]. *)
Definition RWBit_new (register_address : Z) (bit : nat) : RWBit :=
mkRWBit register_address bit 1.

(** [self.bit_mask = 1 << (bit % 8)] *)
Definition bit_mask_of (b : RWBit) : Z :=
Z.shiftl 1 (Z.of_nat (bit_number b) mod 8).

(** [self.byte = bit // 8 + 1], less the address cell. *)
Definition bit_byte_of (b : RWBit) : nat := Nat.div (bit_number b) 8.

(** [RWBit.__get__] on the cell read: [bool(self.buffer[self.byte] &
    self.bit_mask)]. *)
Definition RWBit_decode (b : RWBit) (cell : byte) : bool :=
negb (Z.eqb (Z.land (byte_to_Z cell) (bit_mask_of b)) 0).

(** The cell of [RWBit.__set__] after [|=] or [&= ~]. *)
Definition RWBit_update (b : RWBit) (value : Z) (cell : byte) : byte :=
if Z.eqb value 0
then byte_of_Z (Z.land (byte_to_Z cell) (Z.lnot (bit_mask_of b)))
else byte_of_Z (Z.lor (byte_to_Z cell) (bit_mask_of b)).

(** [RWBit.__set__]: read the register, change one bit, write it back. *)
Definition RWBit_set {D} `{I2CDevice D} (b : RWBit) (value : Z) : M D unit :=
buffer <- bus_read (bit_register_address b) (bit_register_width b) ;;
match nth_error buffer (bit_byte_of b) with
| None => raise IndexError
| Some cell =>
    match set_cell buffer (bit_byte_of b) (RWBit_update b value cell) with
    | None => raise IndexError
    | Some buffer' => bus_write (bit_register_address b) buffer'
    end
end.

(** *** [i2c_bits.RWBits] and [ROBits]

    [ROBits] is [RWBits] with [__set__] refusing: a read-only field is
    an [RWBits] record on which only [RWBits_get] is used. *)

Record RWBits : Type := mkRWBits {
  num_bits : Z;
  register_address : Z;
  lowest_bit : Z;
  register_width : nat
}.

(** [self.bit_mask = ((1 << num_bits) - 1) << lowest_bit] *)
Definition bit_mask (r : RWBits) : Z :=
Z.shiftl (Z.shiftl 1 (num_bits r) - 1) (lowest_bit r).

(** The loop [for i in range(len(buffer) - 1, 0, -1): reg = (reg << 8) |
    buffer[i]]: the last cell first. *)
Definition assemble (buffer : list byte) : Z :=
fold_left (fun reg b => Z.lor (Z.shiftl reg 8) (byte_to_Z b)) (rev buffer) 0.

(** The loop [for i in reversed(order): buffer[i] = reg & 0xFF; reg >>= 8]
    over [width] cells. *)
Fixpoint scatter (width : nat) (reg : Z) : list byte :=
match width with
| O => []
| S n => byte_of_Z (Z.land reg 255) :: scatter n (Z.shiftr reg 8)
end.

(** The value [__get__] returns for the bytes read. *)
Definition RWBits_decode (r : RWBits) (buffer : list byte) : Z :=
Z.shiftr (Z.land (assemble buffer) (bit_mask r)) (lowest_bit r).

(** The register [__set__] writes back for the bytes read. *)
Definition RWBits_encode (r : RWBits) (value : Z) (buffer : list byte) : Z :=
Z.lor (Z.land (assemble buffer) (Z.lnot (bit_mask r)))
      (Z.shiftl value (lowest_bit r)).

Definition RWBits_get {D} `{I2CDevice D} (r : RWBits) : M D Z :=
buffer <- bus_read (register_address r) (register_width r) ;;
ret (RWBits_decode r buffer).

Definition RWBits_set {D} `{I2CDevice D} (r : RWBits) (value : Z) : M D unit :=
buffer <- bus_read (register_address r) (register_width r) ;;
bus_write (register_address r)
          (scatter (register_width r) (RWBits_encode r value buffer)).

(** *** [i2c_struct.Struct] with the format ["<hhh"] *)

(** One ["<h"] field: two bytes, little endian, two's complement. *)
Definition unpack_h (lo hi : byte) : Z :=
let u := Z.lor (byte_to_Z lo) (Z.shiftl (byte_to_Z hi) 8) in
if Z.ltb u 32768 then u else u - 65536.

(** [struct.unpack_from("<hhh", buffer)]; [struct.calcsize] of it is 6,
    and a buffer of another size is refused. *)
Definition unpack_hhh (buffer : list byte) : option (Z * Z * Z) :=
match buffer with
| [b0; b1; b2; b3; b4; b5] => Some (unpack_h b0 b1, unpack_h b2 b3, unpack_h b4 b5)
| _ => None
end.

(** [Struct.__get__]: one read of as many bytes as the format has, so
    that the unpacking is never refused. *)
Definition Struct_hhh_get {D} `{I2CDevice D} (address : Z) : M D (Z * Z * Z) :=
buffer <- bus_read address 6 ;;
match unpack_hhh buffer with
| Some t => ret t
| None => raise RuntimeError
end.

(** ** The enumerations [SFLPRate] and [FIFOMode]

    Each row of [add_values] is [(name, value, string, lsb)]: the
    attribute [name] of the class is [value], the code written to the
    hardware field.  The third column of [SFLPRate] is the rate in Hz
    (the literals [15.0] .. [480.0], kept as integers); [lsb] is [None]
    in every row. *)

Inductive SFLPRate : Type :=
| RATE_15_HZ
| RATE_30_HZ
| RATE_60_HZ
| RATE_120_HZ
| RATE_240_HZ
| RATE_480_HZ.

Definition SFLPRate_values : list (SFLPRate * Z * Z) :=
[ (RATE_15_HZ, 0, 15);
  (RATE_30_HZ, 1, 30);
  (RATE_60_HZ, 2, 60);
  (RATE_120_HZ, 3, 120);
  (RATE_240_HZ, 4, 240);
  (RATE_480_HZ, 5, 480) ].

Definition SFLPRate_eqb (a b : SFLPRate) : bool :=
match a, b with
| RATE_15_HZ, RATE_15_HZ | RATE_30_HZ, RATE_30_HZ | RATE_60_HZ, RATE_60_HZ
| RATE_120_HZ, RATE_120_HZ | RATE_240_HZ, RATE_240_HZ
| RATE_480_HZ, RATE_480_HZ => true
| _, _ => false
end.

Inductive FIFOMode : Type :=
| LSM6DSV16X_BYPASS_MODE
| LSM6DSV16X_FIFO_MODE
| LSM6DSV16X_CONTINUOUS_WTM_TO_FULL_MODE
| LSM6DSV16X_CONTINUOUS_TO_FIFO_MODE
| LSM6DSV16X_BYPASS_TO_CONTINUOUS_MODE
| LSM6DSV16X_CONTINUOUS_MODE
| LSM6DSV16X_BYPASS_TO_FIFO_MODE.

Definition FIFOMode_values : list (FIFOMode * Z * Z) :=
[ (LSM6DSV16X_BYPASS_MODE, 0, 0);
  (LSM6DSV16X_FIFO_MODE, 1, 21);
  (LSM6DSV16X_CONTINUOUS_WTM_TO_FULL_MODE, 2, 2);
  (LSM6DSV16X_CONTINUOUS_TO_FIFO_MODE, 3, 3);
  (LSM6DSV16X_BYPASS_TO_CONTINUOUS_MODE, 4, 4);
  (LSM6DSV16X_CONTINUOUS_MODE, 5, 5);
  (LSM6DSV16X_BYPASS_TO_FIFO_MODE, 6, 6) ].

Definition FIFOMode_eqb (a b : FIFOMode) : bool :=
match a, b with
| LSM6DSV16X_BYPASS_MODE, LSM6DSV16X_BYPASS_MODE
| LSM6DSV16X_FIFO_MODE, LSM6DSV16X_FIFO_MODE
| LSM6DSV16X_CONTINUOUS_WTM_TO_FULL_MODE, LSM6DSV16X_CONTINUOUS_WTM_TO_FULL_MODE
| LSM6DSV16X_CONTINUOUS_TO_FIFO_MODE, LSM6DSV16X_CONTINUOUS_TO_FIFO_MODE
| LSM6DSV16X_BYPASS_TO_CONTINUOUS_MODE, LSM6DSV16X_BYPASS_TO_CONTINUOUS_MODE
| LSM6DSV16X_CONTINUOUS_MODE, LSM6DSV16X_CONTINUOUS_MODE
| LSM6DSV16X_BYPASS_TO_FIFO_MODE, LSM6DSV16X_BYPASS_TO_FIFO_MODE => true
| _, _ => false
end.

(** Modelled from the spec: [CV.add_values] of the package's [__init__],
    which is not among the sources.  Each variant maps to its hardware
    code, the second column of its row; a name without a row has no
    attribute. *)
Fixpoint CV_value {A} (eqb : A -> A -> bool) (rows : list (A * Z * Z)) (name : A)
  : option Z :=
match rows with
| [] => None
| (n, value, _) :: rest =>
    match CV_value eqb rest name with
    | Some v => Some v
    | None => if eqb n name then Some value else None
    end
end.

(** The third column, [cls.string[value]]. *)
Fixpoint CV_string (rows : list (Z * Z)) (value : Z) : option Z :=
match rows with
| [] => None
| (v, s) :: rest =>
    match CV_string rest value with
    | Some x => Some x
    | None => if Z.eqb v value then Some s else None
    end
end.

Definition SFLPRate_value (r : SFLPRate) : Z :=
match CV_value SFLPRate_eqb SFLPRate_values r with Some v => v | None => 0 end.

Definition SFLPRate_hz (r : SFLPRate) : Z :=
match CV_string (map (fun row => (snd (fst row), snd row)) SFLPRate_values)
                (SFLPRate_value r) with
| Some s => s
| None => 0
end.

Definition FIFOMode_value (m : FIFOMode) : Z :=
match CV_value FIFOMode_eqb FIFOMode_values m with Some v => v | None => 0 end.

Definition all_SFLPRate : list SFLPRate :=
[RATE_15_HZ; RATE_30_HZ; RATE_60_HZ; RATE_120_HZ; RATE_240_HZ; RATE_480_HZ].

Definition all_FIFOMode : list FIFOMode :=
[ LSM6DSV16X_BYPASS_MODE; LSM6DSV16X_FIFO_MODE;
  LSM6DSV16X_CONTINUOUS_WTM_TO_FULL_MODE; LSM6DSV16X_CONTINUOUS_TO_FIFO_MODE;
  LSM6DSV16X_BYPASS_TO_CONTINUOUS_MODE; LSM6DSV16X_CONTINUOUS_MODE;
  LSM6DSV16X_BYPASS_TO_FIFO_MODE ].

(** ** The class [LSM6DSV16X]

    The fields and the methods [_enable_sflp], [quaternion] and
    [_read_status].  The field [_sflp_init] is assigned only in a line
    that is commented out and is left out, as is [__init__], whose
    first step is the base class's. *)

Definition _LSM6DSV16X_SFLP_ODR : Z := 0x5E.
Definition _LSM6DSV16X_EMB_FUNC_FIFO_EN_A : Z := 0x44.
Definition _LSM6DSV16X_FIFO_CTRL4 : Z := 0x0A.
Definition _LSM6DSV16X_FIFO_STATUS1 : Z := 0x1B.
Definition _LSM6DSV16X_FIFO_DATA_OUT_X_L : Z := 0x79.
Definition _LSM6DSV16X_FIFO_DATA_OUT_TAG : Z := 0x78.

(** Modelled from the spec: the base class [LSM6DS] and the register
    addresses imported from the package's [__init__], which is not among
    the sources.  The spec gives the bank-select bit as a 1-bit
    read/write field of the embedded-function bank register and the
    engine enable as bit 1 of the embedded-function enable register; the
    addresses and the position of the bank-select bit within its 8-bit
    register are left open, so they are fields here. *)
Class LSM6DS : Type := {
  _LSM6DS_FUNC_CFG_ACCESS : Z;
  _mem_bank_bit : nat;
  _mem_bank_bit_lt_8 : (_mem_bank_bit < 8)%nat;
  _LSM6DS_EMB_FUNC_EN_A : Z
}.

Definition _mem_bank `{LSM6DS} : RWBit :=
RWBit_new _LSM6DS_FUNC_CFG_ACCESS _mem_bank_bit.

Definition _sflp_data_rate : RWBits := mkRWBits 3 _LSM6DSV16X_SFLP_ODR 3 1.
Definition _sflp_batch : RWBit := RWBit_new _LSM6DSV16X_EMB_FUNC_FIFO_EN_A 1.
Definition _fifo_mode : RWBits := mkRWBits 3 _LSM6DSV16X_FIFO_CTRL4 0 1.
Definition _fifo_status1 : RWBits := mkRWBits 8 _LSM6DSV16X_FIFO_STATUS1 0 2.
Definition _fifo_data_out_tag : RWBits := mkRWBits 5 _LSM6DSV16X_FIFO_DATA_OUT_TAG 3 1.
Definition _sflp_en `{LSM6DS} : RWBit := RWBit_new _LSM6DS_EMB_FUNC_EN_A 1.

Definition SAMPLES_BITMASK : Z := 0x01FF. (* 0b0000000111111111 *)
Definition WTM_BITMASK : Z := 0x8000. (* 0b1000000000000000 *)
Definition OVR_BITMASK : Z := 0x4000. (* 0b0100000000000000 *)
Definition FULL_BITMASK : Z := 0x2000. (* 0b0010000000000000 *)
Definition BDR_BITMASK : Z := 0x1000. (* 0b0001000000000000 *)
Definition OVR_LATCHED_BITMASK : Z := 0x0800. (* 0b0000100000000000 *)

Record FIFOStatus : Type := mkFIFOStatus {
  samples : Z;
  wtm : bool;
  ovr : bool;
  full : bool;
  bdr : bool;
  ovr_latch : bool
}.

(** Python's [bool(n)] on an int. *)
Definition truthy (n : Z) : bool := negb (Z.eqb n 0).

(** The body of [_read_status] after the register read. *)
Definition FIFOStatus_of_raw (raw_status : Z) : FIFOStatus :=
mkFIFOStatus
  (Z.land raw_status SAMPLES_BITMASK)
  (truthy (Z.land raw_status WTM_BITMASK))
  (truthy (Z.land raw_status OVR_BITMASK))
  (truthy (Z.land raw_status FULL_BITMASK))
  (truthy (Z.land raw_status BDR_BITMASK))
  (truthy (Z.land raw_status OVR_LATCHED_BITMASK)).

Definition _read_status {D} `{I2CDevice D} : M D FIFOStatus :=
raw_status <- RWBits_get _fifo_status1 ;;
ret (FIFOStatus_of_raw raw_status).

Definition _enable_sflp {D} `{I2CDevice D} `{LSM6DS} : M D unit :=
RWBit_set _mem_bank 1 ;;;
RWBits_set _sflp_data_rate (SFLPRate_value RATE_120_HZ) ;;;
RWBit_set _sflp_batch 1 ;;;
RWBits_set _fifo_mode (FIFOMode_value LSM6DSV16X_CONTINUOUS_MODE) ;;;
RWBit_set _sflp_en 1 ;;;
RWBit_set _mem_bank 0.

(** The four configuration writes of [_enable_sflp], the statements
    between the two assignments to [_mem_bank]. *)
Definition sflp_configuration {D} `{I2CDevice D} `{LSM6DS} : M D unit :=
RWBits_set _sflp_data_rate (SFLPRate_value RATE_120_HZ) ;;;
RWBit_set _sflp_batch 1 ;;;
RWBits_set _fifo_mode (FIFOMode_value LSM6DSV16X_CONTINUOUS_MODE) ;;;
RWBit_set _sflp_en 1.


(** A quaternion sample: the three components of a fusion-output frame. *)
Definition QuaternionSample : Type := (Z * Z * Z)%type.

(** The property [quaternion].  It has no [return]: the call yields
    Python's [None], here [None]. *)
Definition quaternion {D} `{I2CDevice D} : M D (option QuaternionSample) :=
status <- _read_status ;;
let num_samples := samples status in
raw_quat_data <- Struct_hhh_get _LSM6DSV16X_FIFO_DATA_OUT_X_L ;;
print "sample:" (VInt num_samples) ;;;
tag <- RWBits_get _fifo_data_out_tag ;;
print "tag:" (VInt tag) ;;;
let '(x, y, z) := raw_quat_data in
print "data:" (VTuple [x; y; z]) ;;;
ret None.

(** ** The 16-bit status word *)

(** The two bytes of FIFO_STATUS1/FIFO_STATUS2 that hold the word [w],
    low byte at the lower address. *)
Definition status_bytes (w : Z) : list byte :=
[byte_of_Z (w mod 256); byte_of_Z ((w / 256) mod 256)].

(** What [_read_status] returns when the status register holds [w]. *)
Definition status_of_word (w : Z) : FIFOStatus :=
FIFOStatus_of_raw (RWBits_decode _fifo_status1 (status_bytes w)).

(** The six fields put back at their positions of the status word. *)
Definition word_of_status (s : FIFOStatus) : Z :=
Z.lor (samples s)
 (Z.lor (if wtm s then WTM_BITMASK else 0)
 (Z.lor (if ovr s then OVR_BITMASK else 0)
 (Z.lor (if full s then FULL_BITMASK else 0)
 (Z.lor (if bdr s then BDR_BITMASK else 0)
        (if ovr_latch s then OVR_LATCHED_BITMASK else 0))))).

(** The bits of the status word that belong to a field. *)
Definition FIELDS_BITMASK : Z :=
Z.lor SAMPLES_BITMASK
 (Z.lor WTM_BITMASK
 (Z.lor OVR_BITMASK
 (Z.lor FULL_BITMASK
 (Z.lor BDR_BITMASK OVR_LATCHED_BITMASK)))).

(** ** A register-file device with injected faults

    [mem] is the register file, most recent store first; a register
    never stored reads 0.  [faults] says for the coming transactions,
    in order, whether each fails; past its end none fails. *)

Record Mock : Type := mkMock {
  mem : list (Z * byte);
  faults : list bool
}.

Fixpoint peek (m : list (Z * byte)) (a : Z) : byte :=
match m with
| [] => x00
| (a', b) :: rest => if Z.eqb a' a then b else peek rest a
end.

Fixpoint poke (m : list (Z * byte)) (a : Z) (data : list byte) : list (Z * byte) :=
match data with
| [] => m
| b :: rest => poke ((a, b) :: m) (a + 1) rest
end.

Definition Mock_read (d : Mock) (a : Z) (n : nat) : Mock * option (nat -> byte) :=
match faults d with
| true :: fs => (mkMock (mem d) fs, None)
| false :: fs => (mkMock (mem d) fs, Some (fun i => peek (mem d) (a + Z.of_nat i)))
| [] => (d, Some (fun i => peek (mem d) (a + Z.of_nat i)))
end.

Definition Mock_write (d : Mock) (a : Z) (data : list byte) : Mock * bool :=
match faults d with
| true :: fs => (mkMock (mem d) fs, false)
| false :: fs => (mkMock (poke (mem d) a data) fs, true)
| [] => (mkMock (poke (mem d) a data) [], true)
end.

#[export] Instance Mock_I2CDevice : I2CDevice Mock := {
  write_then_readinto := Mock_read;
  write := Mock_write
}.

(** The values the upstream Adafruit driver gives the base class:
    FUNC_CFG_ACCESS is register 0x01 with the bank bit at 7, and
    EMB_FUNC_EN_A is register 0x04. *)
Definition upstream_LSM6DS : LSM6DS := {|
  _LSM6DS_FUNC_CFG_ACCESS := 0x01;
  _mem_bank_bit := 7;
  _mem_bank_bit_lt_8 := ltac:(repeat constructor);
  _LSM6DS_EMB_FUNC_EN_A := 0x04
|}.

Definition start {D} (d : D) : World D := mkWorld d [] [].

(** A device whose FIFO status register holds the word [w]. *)
Definition device_with_status (w : Z) : Mock :=
mkMock (poke [] _LSM6DSV16X_FIFO_STATUS1 (status_bytes w)) [].

(** A device whose FIFO status register holds the word [w] and whose
    FIFO output registers hold the tag byte and the six payload bytes of
    one frame. *)
Definition device_with_frame (w : Z) (tag_byte : byte) (payload : list byte) : Mock :=
mkMock (poke (poke (poke [] _LSM6DSV16X_FIFO_STATUS1 (status_bytes w))
                   _LSM6DSV16X_FIFO_DATA_OUT_TAG [tag_byte])
             _LSM6DSV16X_FIFO_DATA_OUT_X_L payload) [].

(** ** Shapes of runs *)

(** A transaction without its data: direction ([true] for a write),
    register and number of bytes. *)
Definition event_shape (ev : BusEvent) : bool * Z * nat :=
match ev with
| EvRead a n => (false, a, n)
| EvWrite a data => (true, a, length data)
end.

(** One logged transaction carried out on a device: the device it
    leaves and whether it succeeded. *)
Definition perform {D} `{I2CDevice D} (d : D) (ev : BusEvent) : D * bool :=
match ev with
| EvRead a n =>
    let '(d', r) := write_then_readinto d a n in
    (d', match r with Some _ => true | None => false end)
| EvWrite a data => write d a data
end.

(** Logged transactions carried out one after the other: the device
    they leave and the success of each. *)
Fixpoint replay {D} `{I2CDevice D} (d : D) (evs : list BusEvent) : D * list bool :=
match evs with
| [] => (d, [])
| ev :: rest =>
    let '(d1, ok) := perform d ev in
    let '(d2, oks) := replay d1 rest in
    (d2, ok :: oks)
end.

(** The successes of the [n] transactions of a call with result [r]:
    all succeeded when it returned; when it raised, all but the last,
    which failed. *)
Definition outcomes {A} (r : result A) (n : nat) : list bool :=
match r with
| Ok _ => repeat true n
| Raise _ => repeat true (n - 1) ++ [false]
end.

(** A call whose transactions are, in every run, an initial segment of
    [shapes] carried out on the device one after the other: all of them,
    all succeeding, when it returns; when it raises, which it does with
    [OSError] only, those up to the first that failed. *)
Definition follows {D A} `{I2CDevice D} (shapes : list (bool * Z * nat))
  (m : M D A) : Prop :=
forall w r w', m w = (r, w') ->
  exists evs, bus_log w' = bus_log w ++ evs
              /\ map event_shape evs = firstn (length evs) shapes
              /\ replay (device w) evs = (device w', outcomes r (length evs))
              /\ match r with
                 | Ok _ => length evs = length shapes
                 | Raise e => e = OSError /\ (1 <= length evs)%nat
                 end.

(** The cell a one-byte [RWBits.__set__] writes back for the cell read. *)
Definition RWBits_update (r : RWBits) (value : Z) (cell : byte) : byte :=
hd x00 (scatter 1 (RWBits_encode r value [cell])).

(** An assignment carried out on the device [d]: the one-byte register
    [a] is read, and the byte read, changed by [upd], is written back as
    [cell]; both transactions succeed and leave the device [d']. *)
Definition assigned {D} `{I2CDevice D} (d : D) (a : Z) (upd : byte -> byte)
  (d' : D) (cell : byte) : Prop :=
exists (f : nat -> byte) (d1 : D),
  write_then_readinto d a 1 = (d1, Some f)
  /\ cell = upd (f 0%nat)
  /\ write d1 a [cell] = (d', true).

(** A call that prints nothing. *)
Definition silent {D A} (m : M D A) : Prop :=
forall w r w', m w = (r, w') -> stdout w' = stdout w.

(** The transactions of [_enable_sflp], statement by statement: each
    assignment reads its one-byte register and writes it back. *)
Definition _enable_sflp_shapes `{LSM6DS} : list (bool * Z * nat) :=
flat_map (fun a => [(false, a, 1%nat); (true, a, 1%nat)])
  [ _LSM6DS_FUNC_CFG_ACCESS; _LSM6DSV16X_SFLP_ODR;
    _LSM6DSV16X_EMB_FUNC_FIFO_EN_A; _LSM6DSV16X_FIFO_CTRL4;
    _LSM6DS_EMB_FUNC_EN_A; _LSM6DS_FUNC_CFG_ACCESS ].

(** The five registers [_enable_sflp] assigns to. *)
Definition sflp_registers `{LSM6DS} : list Z :=
[ _LSM6DS_FUNC_CFG_ACCESS; _LSM6DSV16X_SFLP_ODR;
  _LSM6DSV16X_EMB_FUNC_FIFO_EN_A; _LSM6DSV16X_FIFO_CTRL4;
  _LSM6DS_EMB_FUNC_EN_A ].

(** What a register holding [cell] holds after the assignments of
    [_enable_sflp] to it, when the five registers are distinct. *)
Definition enabled_cell `{LSM6DS} (a : Z) (cell : byte) : byte :=
if Z.eqb a _LSM6DS_FUNC_CFG_ACCESS
then RWBit_update _mem_bank 0 (RWBit_update _mem_bank 1 cell)
else if Z.eqb a _LSM6DSV16X_SFLP_ODR
then hd x00 (scatter 1 (RWBits_encode _sflp_data_rate
                          (SFLPRate_value RATE_120_HZ) [cell]))
else if Z.eqb a _LSM6DSV16X_EMB_FUNC_FIFO_EN_A
then RWBit_update _sflp_batch 1 cell
else if Z.eqb a _LSM6DSV16X_FIFO_CTRL4
then hd x00 (scatter 1 (RWBits_encode _fifo_mode
                          (FIFOMode_value LSM6DSV16X_CONTINUOUS_MODE) [cell]))
else if Z.eqb a _LSM6DS_EMB_FUNC_EN_A
then RWBit_update _sflp_en 1 cell
else cell.

(** A call on the register-file device that leaves register [c] as it
    was, whether it returns or raises. *)
Definition preserves_cell {A} (c : Z) (m : M Mock A) : Prop :=
forall w r w', m w = (r, w') ->
  peek (mem (device w')) c = peek (mem (device w)) c.

(** Two bytes that agree at every bit outside [mask]. *)
Definition same_outside (mask : Z) (b b' : byte) : Prop :=
Z.land (byte_to_Z b') (Z.lnot mask) = Z.land (byte_to_Z b) (Z.lnot mask).

(** * Properties *)

(** ** Bytes and bits *)

Lemma byte_to_Z_range (b : byte) : 0 <= byte_to_Z b < 256.
Proof.
  unfold byte_to_Z. pose proof (Byte.to_N_bounded b). lia.
Qed.

Lemma byte_to_of_Z (z : Z) : 0 <= z < 256 -> byte_to_Z (byte_of_Z z) = z.
Proof.
  intros Hz. unfold byte_to_Z, byte_of_Z.
  destruct (Byte.of_N (Z.to_N z)) as [b|] eqn:E.
  - apply Byte.to_of_N in E. rewrite E. lia.
  - apply Byte.of_N_None_iff in E. lia.
Qed.

Lemma byte_of_to_Z (b : byte) : byte_of_Z (byte_to_Z b) = b.
Proof.
  unfold byte_to_Z, byte_of_Z. rewrite N2Z.id, Byte.of_to_N. reflexivity.
Qed.

Lemma byte_testbit_high (b : byte) (n : Z) :
  8 <= n -> Z.testbit (byte_to_Z b) n = false.
Proof.
  intros Hn. pose proof (byte_to_Z_range b) as Hb.
  rewrite <- (Z.mod_small (byte_to_Z b) (2 ^ 8)) by (simpl; lia).
  apply Z.mod_pow2_bits_high. lia.
Qed.

Lemma land_255_range (x : Z) : 0 <= Z.land x 255 < 256.
Proof.
  change 255 with (Z.ones 8). rewrite Z.land_ones by lia.
  apply Z.mod_pos_bound. reflexivity.
Qed.

Lemma assemble_pair (lo hi : byte) :
  assemble [lo; hi] = Z.lor (Z.shiftl (byte_to_Z hi) 8) (byte_to_Z lo).
Proof.
  unfold assemble. simpl. reflexivity.
Qed.

(** The 8-bit field declared for the status register keeps the low byte
    of whatever the two cells assemble to. *)
Lemma fifo_status1_decode (buffer : list byte) :
  RWBits_decode _fifo_status1 buffer = Z.land (assemble buffer) 255.
Proof.
  unfold RWBits_decode. simpl. apply Z.shiftr_0_r.
Qed.

Lemma fifo_status1_decode_pair (lo hi : byte) :
  RWBits_decode _fifo_status1 [lo; hi] = byte_to_Z lo.
Proof.
  rewrite fifo_status1_decode, assemble_pair.
  apply Z.bits_inj'. intros n Hn.
  change 255 with (Z.ones 8).
  rewrite Z.land_spec, Z.lor_spec.
  destruct (Z.ltb n 8) eqn:E.
  - apply Z.ltb_lt in E.
    rewrite Z.shiftl_spec_low by lia.
    rewrite Z.ones_spec_low by lia. simpl. apply andb_true_r.
  - apply Z.ltb_ge in E.
    rewrite Z.ones_spec_high by lia.
    rewrite byte_testbit_high by lia. apply andb_false_r.
Qed.

(** A raw status below 256 has none of the flag bits and is its own
    sample count. *)
Lemma FIFOStatus_of_low_byte (x : Z) :
  FIFOStatus_of_raw (Z.land x 255)
  = mkFIFOStatus (Z.land x 255) false false false false false.
Proof.
  unfold FIFOStatus_of_raw, truthy.
  rewrite <- !Z.land_assoc. simpl. rewrite !Z.land_0_r. reflexivity.
Qed.

(** ** Runs of the monad *)

Section Runs.

Context {D : Type} `{I2CDevice D}.

Lemma bind_ok {A B} (m : M D A) (k : A -> M D B) w b w' :
  bind m k w = (Ok b, w') ->
  exists a w1, m w = (Ok a, w1) /\ k a w1 = (Ok b, w').
Proof.
  unfold bind. destruct (m w) as [[a|e] w1]; intros E.
  - exists a, w1. split; [reflexivity|exact E].
  - discriminate E.
Qed.

Lemma bind_raise {A B} (m : M D A) (k : A -> M D B) w e w' :
  bind m k w = (Raise e, w') ->
  m w = (Raise e, w') \/
  exists a w1, m w = (Ok a, w1) /\ k a w1 = (Raise e, w').
Proof.
  unfold bind. destruct (m w) as [[a|e1] w1]; intros E.
  - right. exists a, w1. split; [reflexivity|exact E].
  - left. inversion E. reflexivity.
Qed.

Lemma bind_assoc_run {A B C} (m : M D A) (k : A -> M D B) (h : B -> M D C) w :
  bind (bind m k) h w = bind m (fun a => bind (k a) h) w.
Proof.
  unfold bind. destruct (m w) as [[a|e] w1]; reflexivity.
Qed.

Lemma only_OSError_ret {A} (a : A) : only_OSError (D := D) (ret a).
Proof. intros w e w' E. discriminate E. Qed.

Lemma only_OSError_bind {A B} (m : M D A) (k : A -> M D B) :
  only_OSError m -> (forall a, only_OSError (k a)) -> only_OSError (bind m k).
Proof.
  intros Hm Hk w e w' E. apply bind_raise in E.
  destruct E as [E | (a & w1 & _ & E)].
  - exact (Hm _ _ _ E).
  - exact (Hk _ _ _ _ E).
Qed.

Lemma only_OSError_print label v : only_OSError (D := D) (print label v).
Proof. intros w e w' E. discriminate E. Qed.

Lemma bus_read_ok addr n w bs w' :
  bus_read addr n w = (Ok bs, w') ->
  exists f, write_then_readinto (device w) addr n = (device w', Some f)
            /\ bs = map f (seq 0 n)
            /\ bus_log w' = bus_log w ++ [EvRead addr n]
            /\ stdout w' = stdout w.
Proof.
  unfold bus_read.
  destruct (write_then_readinto (device w) addr n) as [d' [f|]]; intros E;
    inversion E; subst; clear E.
  exists f. simpl. repeat split.
Qed.

Lemma bus_read_raise addr n w e w' :
  bus_read addr n w = (Raise e, w') ->
  e = OSError
  /\ write_then_readinto (device w) addr n = (device w', None)
  /\ bus_log w' = bus_log w ++ [EvRead addr n]
  /\ stdout w' = stdout w.
Proof.
  unfold bus_read.
  destruct (write_then_readinto (device w) addr n) as [d' [f|]]; intros E;
    inversion E; subst; clear E.
  simpl. repeat split.
Qed.

Lemma bus_write_ok addr data w u w' :
  bus_write addr data w = (Ok u, w') ->
  write (device w) addr data = (device w', true)
  /\ bus_log w' = bus_log w ++ [EvWrite addr data]
  /\ stdout w' = stdout w.
Proof.
  unfold bus_write.
  destruct (write (device w) addr data) as [d' [|]]; intros E;
    inversion E; subst; clear E.
  simpl. repeat split.
Qed.

Lemma bus_write_raise addr data w e w' :
  bus_write addr data w = (Raise e, w') ->
  e = OSError
  /\ write (device w) addr data = (device w', false)
  /\ bus_log w' = bus_log w ++ [EvWrite addr data]
  /\ stdout w' = stdout w.
Proof.
  unfold bus_write.
  destruct (write (device w) addr data) as [d' [|]]; intros E;
    inversion E; subst; clear E.
  simpl. repeat split.
Qed.

Lemma only_OSError_bus_read addr n : only_OSError (bus_read addr n).
Proof. intros w e w' E. apply bus_read_raise in E. tauto. Qed.

Lemma only_OSError_bus_write addr data : only_OSError (bus_write addr data).
Proof. intros w e w' E. apply bus_write_raise in E. tauto. Qed.

(** *** Descriptor accesses *)

Lemma RWBit_new_byte a n : (n < 8)%nat -> bit_byte_of (RWBit_new a n) = O.
Proof.
  intros Hn. unfold bit_byte_of, RWBit_new. cbn [bit_number].
  apply Nat.div_small. exact Hn.
Qed.

(** On an 8-bit register, [RWBit.__set__] is one read and one write of
    the cell with the bit changed. *)
Lemma RWBit_set_run a n value w :
  (n < 8)%nat ->
  RWBit_set (RWBit_new a n) value w =
  bind (bus_read a 1)
       (fun buffer =>
          bus_write a [RWBit_update (RWBit_new a n) value (hd x00 buffer)]) w.
Proof.
  intros Hn. unfold RWBit_set, bind. rewrite RWBit_new_byte by exact Hn.
  simpl bit_register_address. simpl bit_register_width.
  destruct (bus_read a 1 w) as [[bs|e] w1] eqn:E; [|reflexivity].
  apply bus_read_ok in E. destruct E as (f & _ & -> & _). reflexivity.
Qed.


Lemma only_OSError_RWBit_set a n value :
  (n < 8)%nat -> only_OSError (RWBit_set (RWBit_new a n) value).
Proof.
  intros Hn w e w' E. rewrite RWBit_set_run in E by exact Hn.
  revert w e w' E. apply only_OSError_bind.
  - apply only_OSError_bus_read.
  - intros bs. apply only_OSError_bus_write.
Qed.


Lemma only_OSError_RWBits_set r value : only_OSError (RWBits_set r value).
Proof.
  unfold RWBits_set. apply only_OSError_bind.
  - apply only_OSError_bus_read.
  - intros bs. apply only_OSError_bus_write.
Qed.

Lemma only_OSError_RWBits_get r : only_OSError (RWBits_get r).
Proof.
  unfold RWBits_get. apply only_OSError_bind.
  - apply only_OSError_bus_read.
  - intros bs. apply only_OSError_ret.
Qed.

(** What a read yields is the device's answer, byte by byte. *)
Lemma RWBits_get_ok r w v w' :
  RWBits_get r w = (Ok v, w') ->
  exists f, write_then_readinto (device w) (register_address r) (register_width r)
            = (device w', Some f)
            /\ v = RWBits_decode r (map f (seq 0 (register_width r)))
            /\ bus_log w' = bus_log w
                 ++ [EvRead (register_address r) (register_width r)]
            /\ stdout w' = stdout w.
Proof.
  intros E. unfold RWBits_get in E.
  apply bind_ok in E. destruct E as (bs & w1 & E1 & E2).
  inversion E2; subst; clear E2.
  apply bus_read_ok in E1. destruct E1 as (f & Hf & Hbs & L1 & O1).
  exists f. subst bs. repeat split; assumption.
Qed.

End Runs.

(** From a sequence of statements that returned, split off the first
    statement's run as [E1]; [E] keeps the run of the rest. *)
Ltac first_statement E E1 :=
  let a := fresh "a" in
  let w := fresh "w" in
  apply bind_ok in E; destruct E as (a & w & E1 & E).

(** ** The status read *)

Lemma status_of_word_low_byte (x : Z) :
  status_of_word x = FIFOStatus_of_raw (x mod 256).
Proof.
  unfold status_of_word, status_bytes.
  rewrite fifo_status1_decode_pair, byte_to_of_Z; [reflexivity|].
  apply Z.mod_pos_bound. reflexivity.
Qed.

Lemma status_of_word_fields (x : Z) :
  status_of_word x = mkFIFOStatus (x mod 256) false false false false false.
Proof.
  rewrite status_of_word_low_byte.
  replace (x mod 256) with (Z.land x 255)
    by (change 255 with (Z.ones 8); apply Z.land_ones; lia).
  apply FIFOStatus_of_low_byte.
Qed.

Section StatusRead.

Context {D : Type} `{I2CDevice D}.

(** The status read is one two-byte read of FIFO_STATUS1; its value is
    decoded from the first of the two bytes alone. *)
Lemma _read_status_ok (w w' : World D) (st : FIFOStatus) :
  _read_status w = (Ok st, w') ->
  exists f,
    write_then_readinto (device w) _LSM6DSV16X_FIFO_STATUS1 2 = (device w', Some f)
    /\ st = FIFOStatus_of_raw (byte_to_Z (f 0%nat))
    /\ bus_log w' = bus_log w ++ [EvRead _LSM6DSV16X_FIFO_STATUS1 2]
    /\ stdout w' = stdout w.
Proof.
  intros E. unfold _read_status in E.
  apply bind_ok in E. destruct E as (raw & w1 & E1 & E2).
  inversion E2; subst; clear E2.
  apply RWBits_get_ok in E1. destruct E1 as (f & Hf & Hraw & L & O).
  exists f. repeat split; try assumption.
  rewrite Hraw. simpl map. rewrite fifo_status1_decode_pair. reflexivity.
Qed.

(** When the register pair holds the word [lo + 256 * hi], the status
    read returns [status_of_word] of it. *)
Lemma _read_status_word (w : World D) d' f :
  write_then_readinto (device w) _LSM6DSV16X_FIFO_STATUS1 2 = (d', Some f) ->
  fst (_read_status w)
  = Ok (status_of_word (byte_to_Z (f 0%nat) + 256 * byte_to_Z (f 1%nat))).
Proof.
  intros E. unfold _read_status, RWBits_get, bind, bus_read.
  cbn [register_address register_width _fifo_status1]. rewrite E.
  cbn [map seq fst ret].
  rewrite fifo_status1_decode_pair, status_of_word_low_byte.
  pose proof (byte_to_Z_range (f 0%nat)).
  rewrite (Z.mul_comm 256), Z.mod_add by lia.
  rewrite Z.mod_small by lia. reflexivity.
Qed.

Lemma only_OSError__read_status : only_OSError (D := D) _read_status.
Proof.
  unfold _read_status. apply only_OSError_bind.
  - apply only_OSError_RWBits_get.
  - intros raw. apply only_OSError_ret.
Qed.

End StatusRead.

(** On the register-file device the status read returns
    [status_of_word] of the word stored. *)
Lemma _read_status_device_with_status (x : Z) :
  fst (_read_status (start (device_with_status x))) = Ok (status_of_word x).
Proof.
  erewrite _read_status_word by reflexivity.
  rewrite !status_of_word_low_byte. cbv beta.
  change (peek (mem (device (start (device_with_status x))))
               (_LSM6DSV16X_FIFO_STATUS1 + Z.of_nat 0))
    with (byte_of_Z (x mod 256)).
  pose proof (Z.mod_pos_bound x 256 eq_refl) as Hx.
  rewrite byte_to_of_Z by exact Hx.
  rewrite (Z.mul_comm 256), Z.mod_add by lia.
  rewrite Z.mod_mod by lia. reflexivity.
Qed.

(** C1, at the status word 0x8207: the status read returns the sample
    count 7 with every flag false, the watermark flag included, so that
    putting the six fields back gives 0x0007 where the word has 0x8007
    at the fields' positions. *)
Theorem C1_status_word_0x8207 :
  fst (_read_status (start (device_with_status 0x8207)))
  = Ok (mkFIFOStatus 7 false false false false false)
  /\ word_of_status (status_of_word 0x8207) = 0x0007
  /\ Z.land 0x8207 FIELDS_BITMASK = 0x8007.
Proof.
  repeat split; vm_compute; reflexivity.
Qed.

(** C7: the sample count of every status value a status read returns is
    in 0..511, and two status words that differ at bits 10 and 9 only
    decode to the same sample count. *)
Theorem C7_samples_in_range_reserved_bits_ignored :
  (forall (D : Type) (dev : I2CDevice D) (w w' : World D) (st : FIFOStatus),
      _read_status w = (Ok st, w') -> 0 <= samples st <= 511)
  /\ (forall x y : Z,
         (forall i : Z, i <> 9 -> i <> 10 -> Z.testbit x i = Z.testbit y i) ->
         samples (status_of_word x) = samples (status_of_word y)).
Proof.
  split.
  - intros D dev w w' st E.
    apply _read_status_ok in E. destruct E as (f & _ & -> & _).
    unfold FIFOStatus_of_raw. cbn [samples].
    change SAMPLES_BITMASK with (Z.ones 9). rewrite Z.land_ones by lia.
    pose proof (Z.mod_pos_bound (byte_to_Z (f 0%nat)) (2 ^ 9) eq_refl) as Hb.
    change (2 ^ 9) with 512 in *. lia.
  - intros x y Hxy. rewrite !status_of_word_fields. cbn [samples].
    change 256 with (2 ^ 8). apply Z.bits_inj'. intros n Hn.
    destruct (Z.ltb n 8) eqn:E.
    + apply Z.ltb_lt in E. rewrite !Z.mod_pow2_bits_low by lia.
      apply Hxy; lia.
    + apply Z.ltb_ge in E. rewrite !Z.mod_pow2_bits_high by lia. reflexivity.
Qed.

Lemma C7_witness :
  (_read_status (start (device_with_status 0x07FF))
   = (Ok (status_of_word 0x07FF),
      snd (_read_status (start (device_with_status 0x07FF))))
   /\ 0 <= samples (status_of_word 0x07FF) <= 511)
  /\ ((forall i : Z, i <> 9 -> i <> 10 ->
                     Z.testbit 0x0607 i = Z.testbit 0x0007 i)
      /\ samples (status_of_word 0x0607) = samples (status_of_word 0x0007)).
Proof.
  assert (Hrun : _read_status (start (device_with_status 0x07FF))
                 = (Ok (status_of_word 0x07FF),
                    snd (_read_status (start (device_with_status 0x07FF)))))
    by (vm_compute; reflexivity).
  assert (Hbits : forall i : Z, i <> 9 -> i <> 10 ->
                                Z.testbit 0x0607 i = Z.testbit 0x0007 i).
  { intros i H9 H10.
    destruct i as [|p|p]; [reflexivity| |reflexivity].
    destruct p as [[[[p|p|]|[p|p|]|]|[[p|p|]|[p|p|]|]|]
                  |[[[p|p|]|[p|p|]|]|[[p|p|]|[p|p|]|]|]|];
      try reflexivity; try (exfalso; lia). }
  split.
  - split; [exact Hrun|].
    exact (proj1 C7_samples_in_range_reserved_bits_ignored _ _ _ _ _ Hrun).
  - split; [exact Hbits|].
    exact (proj2 C7_samples_in_range_reserved_bits_ignored _ _ Hbits).
Defined.

(** C10: every status value a status read returns has all five flags
    false and a sample count of at most 255: the count is the first of
    the two bytes read, and each flag mask selects bit 11 or a higher
    one. *)
Theorem C10_status_read_has_no_flags :
  forall (D : Type) (dev : I2CDevice D) (w w' : World D) (st : FIFOStatus),
    _read_status w = (Ok st, w') ->
    (wtm st = false /\ ovr st = false /\ full st = false /\ bdr st = false
     /\ ovr_latch st = false /\ 0 <= samples st <= 255)
    /\ (exists f : nat -> byte,
          write_then_readinto (device w) _LSM6DSV16X_FIFO_STATUS1 2
          = (device w', Some f)
          /\ samples st = byte_to_Z (f 0%nat))
    /\ Forall (fun mask => 2 ^ 11 <= mask)
              [ WTM_BITMASK; OVR_BITMASK; FULL_BITMASK; BDR_BITMASK;
                OVR_LATCHED_BITMASK ].
Proof.
  intros D dev w w' st E.
  apply _read_status_ok in E. destruct E as (f & Hf & -> & _).
  pose proof (byte_to_Z_range (f 0%nat)) as Hb.
  assert (Hlow : Z.land (byte_to_Z (f 0%nat)) 255 = byte_to_Z (f 0%nat)).
  { change 255 with (Z.ones 8). rewrite Z.land_ones by lia.
    apply Z.mod_small. simpl. lia. }
  rewrite <- Hlow, FIFOStatus_of_low_byte, Hlow.
  cbn [wtm ovr full bdr ovr_latch samples].
  split; [repeat split; lia|]. split.
  - exists f. split; [exact Hf|reflexivity].
  - repeat constructor; vm_compute; discriminate.
Qed.

Lemma C10_witness :
  let w := start (device_with_status 0xFFFF) in
  let st := status_of_word 0xFFFF in
  let w' := snd (_read_status w) in
  _read_status w = (Ok st, w')
  /\ (wtm st = false /\ ovr st = false /\ full st = false /\ bdr st = false
      /\ ovr_latch st = false /\ 0 <= samples st <= 255).
Proof.
  intros w st w'.
  assert (Hrun : _read_status w = (Ok st, w')) by (vm_compute; reflexivity).
  split; [exact Hrun|].
  exact (proj1 (C10_status_read_has_no_flags _ _ _ _ _ Hrun)).
Defined.

(** ** The enumerations *)

Lemma FIFOMode_all (m : FIFOMode) : In m all_FIFOMode.
Proof. destruct m; simpl; tauto. Qed.

Lemma SFLPRate_all (r : SFLPRate) : In r all_SFLPRate.
Proof. destruct r; simpl; tauto. Qed.

(** A code below 8 written to a 3-bit field at bit 0 of a one-byte
    register reads back unchanged, whatever the register held. *)
Lemma fifo_mode_field_readback (v : Z) (cell : byte) :
  0 <= v <= 7 ->
  RWBits_decode _fifo_mode (scatter 1 (RWBits_encode _fifo_mode v [cell])) = v.
Proof.
  intros Hv.
  assert (Hcases : v = 0 \/ v = 1 \/ v = 2 \/ v = 3 \/ v = 4 \/ v = 5
                   \/ v = 6 \/ v = 7) by lia.
  destruct Hcases as [->|[->|[->|[->|[->|[->|[->| ->]]]]]]];
    destruct cell; vm_compute; reflexivity.
Qed.

(** C8: each of the seven FIFO modes has a code in 0..7, the range of
    the 3-bit mode field at bits 0-2 of register 0x0A; written to that
    field the code reads back unchanged. *)
Theorem C8_fifo_mode_codes_fit_three_bits :
  forall m : FIFOMode,
    0 <= FIFOMode_value m <= 7
    /\ FIFOMode_value m < 2 ^ num_bits _fifo_mode
    /\ register_address _fifo_mode = 0x0A
    /\ lowest_bit _fifo_mode = 0
    /\ forall cell : byte,
         RWBits_decode _fifo_mode
           (scatter 1 (RWBits_encode _fifo_mode (FIFOMode_value m) [cell]))
         = FIFOMode_value m.
Proof.
  intros m.
  assert (Hr : 0 <= FIFOMode_value m <= 7) by (destruct m; vm_compute; split; discriminate).
  split; [exact Hr|]. split; [simpl; lia|]. split; [reflexivity|].
  split; [reflexivity|].
  intros cell. apply fifo_mode_field_readback. exact Hr.
Qed.

(** ** Fields written and read back *)

(** The bit an [RWBit] of an 8-bit register writes reads back as the
    truth value assigned, whatever the register held. *)
Lemma RWBit_readback (a : Z) (n : nat) (value : Z) (cell : byte) :
  (n < 8)%nat ->
  RWBit_decode (RWBit_new a n) (RWBit_update (RWBit_new a n) value cell)
  = truthy value.
Proof.
  intros Hn. unfold RWBit_decode, RWBit_update, truthy, bit_mask_of, RWBit_new.
  cbn [bit_number].
  destruct (Z.eqb value 0);
    do 8 (destruct n as [|n]; [destruct cell; vm_compute; reflexivity|]);
    exfalso; lia.
Qed.

Lemma sflp_data_rate_readback (r : SFLPRate) (cell : byte) :
  RWBits_decode _sflp_data_rate
    (scatter 1 (RWBits_encode _sflp_data_rate (SFLPRate_value r) [cell]))
  = SFLPRate_value r.
Proof.
  destruct r; destruct cell; vm_compute; reflexivity.
Qed.

(** [RWBits.__init__] raises [ValueError] for a field that does not fit
    its register; none of the fields of the class does. *)
Lemma fields_fit_their_registers :
  Forall (fun r => bit_mask r < 2 ^ (8 * Z.of_nat (register_width r)))
         [_sflp_data_rate; _fifo_mode; _fifo_status1; _fifo_data_out_tag].
Proof.
  repeat constructor.
Qed.


(** ** Enabling sensor fusion *)

Section EnableSFLP.

Context {D : Type} `{I2CDevice D} `{LSM6DS}.


Lemma only_OSError_sflp_configuration : only_OSError (D := D) sflp_configuration.
Proof.
  unfold sflp_configuration.
  repeat (apply only_OSError_bind; [|intros _]);
    first [ apply only_OSError_RWBits_set
          | apply only_OSError_RWBit_set; lia ].
Qed.

Lemma only_OSError__enable_sflp : only_OSError (D := D) _enable_sflp.
Proof.
  unfold _enable_sflp.
  repeat (apply only_OSError_bind; [|intros _]);
    first [ apply only_OSError_RWBits_set
          | apply only_OSError_RWBit_set; first [lia | apply _mem_bank_bit_lt_8] ].
Qed.

(** The statements of [_enable_sflp] are the bank entry, the four
    configuration writes and the bank exit. *)
Lemma _enable_sflp_parts (w : World D) :
  _enable_sflp w
  = bind (RWBit_set _mem_bank 1)
         (fun _ => bind sflp_configuration (fun _ => RWBit_set _mem_bank 0)) w.
Proof.
  unfold _enable_sflp, sflp_configuration, bind.
  destruct (RWBit_set _mem_bank 1 w) as [[u1|e1] w1]; [|reflexivity].
  destruct (RWBits_set _sflp_data_rate _ w1) as [[u2|e2] w2]; [|reflexivity].
  destruct (RWBit_set _sflp_batch 1 w2) as [[u3|e3] w3]; [|reflexivity].
  destruct (RWBits_set _fifo_mode _ w3) as [[u4|e4] w4]; [|reflexivity].
  destruct (RWBit_set _sflp_en 1 w4) as [[u5|e5] w5]; reflexivity.
Qed.

End EnableSFLP.

(** *** Which registers a call addresses *)

Section Touches.

Context {D : Type} `{I2CDevice D}.







End Touches.




(** ** The frame read *)

Lemma lor_shiftl_8_add (lo hi : byte) :
  Z.lor (byte_to_Z lo) (Z.shiftl (byte_to_Z hi) 8)
  = byte_to_Z lo + 256 * byte_to_Z hi.
Proof.
  rewrite <- Z.lxor_lor, <- Z.add_nocarry_lxor.
  - rewrite Z.shiftl_mul_pow2 by lia. change (2 ^ 8) with 256. lia.
  - apply Z.bits_inj'. intros n Hn. rewrite Z.land_spec, Z.bits_0.
    destruct (Z.ltb n 8) eqn:E.
    + apply Z.ltb_lt in E. rewrite Z.shiftl_spec_low by lia.
      apply andb_false_r.
    + apply Z.ltb_ge in E. rewrite byte_testbit_high by lia. reflexivity.
  - apply Z.bits_inj'. intros n Hn. rewrite Z.land_spec, Z.bits_0.
    destruct (Z.ltb n 8) eqn:E.
    + apply Z.ltb_lt in E. rewrite Z.shiftl_spec_low by lia.
      apply andb_false_r.
    + apply Z.ltb_ge in E. rewrite byte_testbit_high by lia. reflexivity.
Qed.

(** ["<h"] is the two's-complement reading of the little-endian pair. *)
Lemma unpack_h_signed (lo hi : byte) :
  -32768 <= unpack_h lo hi <= 32767
  /\ unpack_h lo hi mod 65536 = byte_to_Z lo + 256 * byte_to_Z hi.
Proof.
  unfold unpack_h. rewrite lor_shiftl_8_add.
  pose proof (byte_to_Z_range lo). pose proof (byte_to_Z_range hi).
  destruct (Z.ltb (byte_to_Z lo + 256 * byte_to_Z hi) 32768) eqn:E.
  - apply Z.ltb_lt in E. split; [lia|]. apply Z.mod_small. lia.
  - apply Z.ltb_ge in E. split; [lia|].
    symmetry. apply (Z.mod_unique _ _ (-1)); lia.
Qed.

Section FrameRead.

Context {D : Type} `{I2CDevice D}.

(** [_raw_sensor_fusion_data] is one six-byte read of FIFO_DATA_OUT_X_L,
    unpacked pair by pair. *)
Lemma Struct_hhh_get_run (a : Z) (w : World D) :
  Struct_hhh_get a w =
  match write_then_readinto (device w) a 6 with
  | (d', Some f) =>
      (Ok (unpack_h (f 0%nat) (f 1%nat), unpack_h (f 2%nat) (f 3%nat),
           unpack_h (f 4%nat) (f 5%nat)),
       mkWorld d' (bus_log w ++ [EvRead a 6]) (stdout w))
  | (d', None) =>
      (Raise OSError, mkWorld d' (bus_log w ++ [EvRead a 6]) (stdout w))
  end.
Proof.
  unfold Struct_hhh_get, bind, bus_read.
  destruct (write_then_readinto (device w) a 6) as [d' [f|]]; reflexivity.
Qed.

Lemma RWBits_get_run (r : RWBits) (w : World D) :
  RWBits_get r w =
  match write_then_readinto (device w) (register_address r) (register_width r) with
  | (d', Some f) =>
      (Ok (RWBits_decode r (map f (seq 0 (register_width r)))),
       mkWorld d' (bus_log w ++ [EvRead (register_address r) (register_width r)])
               (stdout w))
  | (d', None) =>
      (Raise OSError,
       mkWorld d' (bus_log w ++ [EvRead (register_address r) (register_width r)])
               (stdout w))
  end.
Proof.
  unfold RWBits_get, bind, bus_read, ret.
  destruct (write_then_readinto (device w) (register_address r) (register_width r))
    as [d' [f|]]; reflexivity.
Qed.

(** After a status read that succeeded, the property reads the payload
    registers and then the tag register, and returns [None]; it raises
    only when one of these reads fails. *)
Lemma quaternion_after_status (w w1 : World D) (st : FIFOStatus) :
  _read_status w = (Ok st, w1) ->
  exists (r : result (option QuaternionSample)) (w' : World D)
         (evs : list BusEvent),
    quaternion w = (r, w')
    /\ bus_log w' = bus_log w1 ++ EvRead _LSM6DSV16X_FIFO_DATA_OUT_X_L 6 :: evs
    /\ match r with
       | Raise e => e = OSError
       | Ok v => v = None /\ evs = [EvRead _LSM6DSV16X_FIFO_DATA_OUT_TAG 1]
       end.
Proof.
  intros E. unfold quaternion. unfold bind at 1. rewrite E.
  unfold bind at 1. rewrite Struct_hhh_get_run.
  destruct (write_then_readinto (device w1) _LSM6DSV16X_FIFO_DATA_OUT_X_L 6)
    as [d2 [f|]].
  - unfold bind at 1. unfold print at 1. cbn [device bus_log stdout].
    unfold bind at 1. rewrite RWBits_get_run.
    cbn [device bus_log stdout register_address register_width
         _fifo_data_out_tag].
    destruct (write_then_readinto d2 _LSM6DSV16X_FIFO_DATA_OUT_TAG 1)
      as [d3 [g|]].
    + eexists _, _, _. split; [reflexivity|]. cbn [bus_log].
      split; [rewrite <- app_assoc; reflexivity|]. split; reflexivity.
    + eexists _, _, _. split; [reflexivity|]. cbn [bus_log].
      split; [rewrite <- app_assoc; reflexivity|]. reflexivity.
  - eexists _, _, []. split; [reflexivity|]. cbn [bus_log].
    split; reflexivity.
Qed.

(** The property never returns a sample. *)
Lemma quaternion_returns_None (w : World D) :
  fst (quaternion w) = Ok None \/ fst (quaternion w) = Raise OSError.
Proof.
  destruct (_read_status w) as [[st|e] w1] eqn:E.
  - destruct (quaternion_after_status _ _ _ E) as (r & w' & evs & Eq & _ & Hr).
    rewrite Eq. destruct r as [v|e]; cbn [fst].
    + left. destruct Hr as [-> _]. reflexivity.
    + right. subst e. reflexivity.
  - right. unfold quaternion, bind. rewrite E. cbn [fst].
    rewrite (only_OSError__read_status _ _ _ E). reflexivity.
Qed.

End FrameRead.




(** C5, at a frame carrying the tag 0x13 and the payload 01 00 02 00 FF
    FF: the property prints the tag and the three components and returns
    [None]; on no device does it return a sample. *)
Theorem C5_quaternion_returns_no_sample :
  (forall (D : Type) (dev : I2CDevice D) (w : World D),
      fst (quaternion w) = Ok None \/ fst (quaternion w) = Raise OSError)
  /\ (let run := quaternion
                   (start (device_with_frame 1 x98
                             [x01; x00; x02; x00; xff; xff])) in
      fst run = Ok None
      /\ stdout (snd run)
         = [ ("sample:"%string, VInt 1);
             ("tag:"%string, VInt 0x13);
             ("data:"%string, VTuple [1; 2; -1]) ]).
Proof.
  split.
  - intros D dev w. apply quaternion_returns_None.
  - vm_compute. split; reflexivity.
Qed.

(** C6: the value of [_raw_sensor_fusion_data] is made of the six bytes
    read at 0x79, taken two by two as signed little-endian 16-bit
    integers; the bytes 01 00 02 00 FF FF give 1, 2 and -1. *)
Theorem C6_payload_three_signed_le16 :
  (forall (D : Type) (dev : I2CDevice D) (w : World D) (d' : D)
          (f : nat -> byte),
      write_then_readinto (device w) _LSM6DSV16X_FIFO_DATA_OUT_X_L 6
      = (d', Some f) ->
      exists x y z : Z,
        fst (Struct_hhh_get _LSM6DSV16X_FIFO_DATA_OUT_X_L w) = Ok (x, y, z)
        /\ (-32768 <= x <= 32767
            /\ x mod 65536 = byte_to_Z (f 0%nat) + 256 * byte_to_Z (f 1%nat))
        /\ (-32768 <= y <= 32767
            /\ y mod 65536 = byte_to_Z (f 2%nat) + 256 * byte_to_Z (f 3%nat))
        /\ (-32768 <= z <= 32767
            /\ z mod 65536 = byte_to_Z (f 4%nat) + 256 * byte_to_Z (f 5%nat)))
  /\ unpack_hhh [x01; x00; x02; x00; xff; xff] = Some (1, 2, -1)
  /\ fst (Struct_hhh_get _LSM6DSV16X_FIFO_DATA_OUT_X_L
            (start (device_with_frame 1 x98 [x01; x00; x02; x00; xff; xff])))
     = Ok (1, 2, -1).
Proof.
  split; [|split; vm_compute; reflexivity].
  intros D dev w d' f E. rewrite Struct_hhh_get_run, E. cbn [fst].
  eexists _, _, _. split; [reflexivity|].
  repeat split; apply unpack_h_signed.
Qed.

Lemma C6_witness :
  let w := start (device_with_frame 1 x98 [x01; x00; x02; x00; xff; xff]) in
  let f := fun i : nat => peek (mem (device w)) (0x79 + Z.of_nat i) in
  write_then_readinto (device w) _LSM6DSV16X_FIFO_DATA_OUT_X_L 6
  = (device w, Some f)
  /\ exists x y z : Z,
      fst (Struct_hhh_get _LSM6DSV16X_FIFO_DATA_OUT_X_L w) = Ok (x, y, z)
      /\ (-32768 <= x <= 32767
          /\ x mod 65536 = byte_to_Z (f 0%nat) + 256 * byte_to_Z (f 1%nat))
      /\ (-32768 <= y <= 32767
          /\ y mod 65536 = byte_to_Z (f 2%nat) + 256 * byte_to_Z (f 3%nat))
      /\ (-32768 <= z <= 32767
          /\ z mod 65536 = byte_to_Z (f 4%nat) + 256 * byte_to_Z (f 5%nat)).
Proof.
  intros w f.
  assert (Hread : write_then_readinto (device w) _LSM6DSV16X_FIFO_DATA_OUT_X_L 6
                  = (device w, Some f)) by reflexivity.
  split; [exact Hread|].
  exact (proj1 C6_payload_three_signed_le16 Mock Mock_I2CDevice w
           (device w) f Hread).
Defined.

(** * Further properties *)

(** ** The transactions of a run *)

Section Shapes.

Context {D : Type} `{I2CDevice D}.

Lemma replay_app (d : D) (evs1 evs2 : list BusEvent) :
  replay d (evs1 ++ evs2)
  = let '(d1, oks1) := replay d evs1 in
    let '(d2, oks2) := replay d1 evs2 in
    (d2, oks1 ++ oks2).
Proof.
  revert d. induction evs1 as [|ev evs1 IH]; intros d; cbn [app replay].
  - destruct (replay d evs2) as [d2 oks2]. reflexivity.
  - destruct (perform d ev) as [d1 ok]. rewrite IH.
    destruct (replay d1 evs1) as [d2 oks1].
    destruct (replay d2 evs2) as [d3 oks2]. reflexivity.
Qed.

Lemma outcomes_after_success {A B} (a : A) (r : result B) (n1 n2 : nat) :
  match r with Ok _ => True | Raise _ => (1 <= n2)%nat end ->
  outcomes (Ok a) n1 ++ outcomes r n2 = outcomes r (n1 + n2).
Proof.
  intros Hn. destruct r as [b|e]; cbn [outcomes].
  - rewrite repeat_app. reflexivity.
  - replace (n1 + n2 - 1)%nat with (n1 + (n2 - 1))%nat by lia.
    rewrite repeat_app, app_assoc. reflexivity.
Qed.

Lemma follows_bind {A B} s1 s2 (m : M D A) (k : A -> M D B) :
  follows s1 m -> (forall a, follows s2 (k a)) -> follows (s1 ++ s2) (bind m k).
Proof.
  intros Hm Hk w r w' E. unfold bind in E.
  destruct (m w) as [[a|e] w1] eqn:Em.
  - destruct (Hm _ _ _ Em) as (evs1 & L1 & S1 & R1 & N1).
    destruct (Hk _ _ _ _ E) as (evs2 & L2 & S2 & R2 & N2).
    exists (evs1 ++ evs2). split; [rewrite L2, L1, app_assoc; reflexivity|].
    rewrite N1, firstn_all in S1. split; [|split].
    + rewrite map_app, length_app, S1, S2, N1, firstn_app_2. reflexivity.
    + rewrite replay_app, R1, R2, length_app.
      rewrite outcomes_after_success; [reflexivity|].
      destruct r as [b|e]; [exact I|apply N2].
    + destruct r as [b|e].
      * rewrite !length_app. lia.
      * destruct N2 as [-> N2]. split; [reflexivity|].
        rewrite length_app. lia.
  - inversion E; subst; clear E.
    destruct (Hm _ _ _ Em) as (evs1 & L1 & S1 & R1 & N1).
    exists evs1. split; [exact L1|]. split; [|split; [exact R1|exact N1]].
    assert (Hlen : (length evs1 <= length s1)%nat).
    { apply (f_equal (@length _)) in S1.
      rewrite length_map, length_firstn in S1. lia. }
    rewrite firstn_app.
    replace (length evs1 - length s1)%nat with O by lia.
    rewrite firstn_O, app_nil_r. exact S1.
Qed.

Lemma follows_bus_read a n : follows [(false, a, n)] (bus_read a n).
Proof.
  intros w r w' E. exists [EvRead a n]. unfold bus_read in E.
  cbn [replay perform].
  destruct (write_then_readinto (device w) a n) as [d' [f|]];
    inversion E; subst; cbn; repeat split; lia.
Qed.

Lemma follows_bus_write a data :
  follows [(true, a, length data)] (bus_write a data).
Proof.
  intros w r w' E. exists [EvWrite a data]. unfold bus_write in E.
  cbn [replay perform].
  destruct (write (device w) a data) as [d' [|]];
    inversion E; subst; cbn; repeat split; lia.
Qed.

Lemma follows_RWBit_set a n value :
  (n < 8)%nat ->
  follows [(false, a, 1%nat); (true, a, 1%nat)]
          (RWBit_set (RWBit_new a n) value).
Proof.
  intros Hn w r w' E. rewrite RWBit_set_run in E by exact Hn.
  revert w r w' E.
  apply (follows_bind [(false, a, 1%nat)] [(true, a, 1%nat)]).
  - apply follows_bus_read.
  - intros bs. apply (follows_bus_write a [_]).
Qed.

Lemma length_scatter n reg : length (scatter n reg) = n.
Proof.
  revert reg. induction n as [|n IH]; intros reg; simpl; [reflexivity|].
  rewrite IH. reflexivity.
Qed.

Lemma follows_RWBits_set r value :
  follows [ (false, register_address r, register_width r);
            (true, register_address r, register_width r) ]
          (RWBits_set r value).
Proof.
  unfold RWBits_set.
  apply (follows_bind [(false, register_address r, register_width r)]
                      [(true, register_address r, register_width r)]).
  - apply follows_bus_read.
  - intros bs.
    pose proof (follows_bus_write (register_address r)
                  (scatter (register_width r) (RWBits_encode r value bs))) as F.
    rewrite length_scatter in F. exact F.
Qed.

Lemma follows__enable_sflp `{LSM6DS} :
  follows _enable_sflp_shapes (_enable_sflp (D := D)).
Proof.
  unfold _enable_sflp, _enable_sflp_shapes. cbn [flat_map app].
  apply (follows_bind [_; _] (_ :: _));
    [apply follows_RWBit_set, _mem_bank_bit_lt_8|intros _].
  apply (follows_bind [_; _] (_ :: _));
    [apply (follows_RWBits_set _sflp_data_rate)|intros _].
  apply (follows_bind [_; _] (_ :: _));
    [apply follows_RWBit_set; lia|intros _].
  apply (follows_bind [_; _] (_ :: _));
    [apply (follows_RWBits_set _fifo_mode)|intros _].
  apply (follows_bind [_; _] (_ :: _));
    [apply follows_RWBit_set; lia|intros _].
  apply follows_RWBit_set, _mem_bank_bit_lt_8.
Qed.

(** *** Calls that print nothing *)

Lemma silent_bind {A B} (m : M D A) (k : A -> M D B) :
  silent m -> (forall a, silent (k a)) -> silent (bind m k).
Proof.
  intros Hm Hk w r w' E. unfold bind in E.
  destruct (m w) as [[a|e] w1] eqn:Em.
  - rewrite (Hk _ _ _ _ E). exact (Hm _ _ _ Em).
  - inversion E; subst. exact (Hm _ _ _ Em).
Qed.

Lemma silent_bus_read a n : silent (bus_read (D := D) a n).
Proof.
  intros w r w' E. unfold bus_read in E.
  destruct (write_then_readinto (device w) a n) as [d' [f|]];
    inversion E; reflexivity.
Qed.

Lemma silent_bus_write a data : silent (bus_write (D := D) a data).
Proof.
  intros w r w' E. unfold bus_write in E.
  destruct (write (device w) a data) as [d' ack]; inversion E; reflexivity.
Qed.

Lemma silent_RWBit_set a n value :
  (n < 8)%nat -> silent (RWBit_set (D := D) (RWBit_new a n) value).
Proof.
  intros Hn w r w' E. rewrite RWBit_set_run in E by exact Hn.
  revert w r w' E. apply silent_bind.
  - apply silent_bus_read.
  - intros bs. apply silent_bus_write.
Qed.

Lemma silent_RWBits_set r value : silent (RWBits_set (D := D) r value).
Proof.
  unfold RWBits_set. apply silent_bind.
  - apply silent_bus_read.
  - intros bs. apply silent_bus_write.
Qed.

Lemma silent__enable_sflp `{LSM6DS} : silent (_enable_sflp (D := D)).
Proof.
  unfold _enable_sflp.
  repeat (apply silent_bind; [|intros _]);
    first [ apply silent_RWBits_set
          | apply silent_RWBit_set; first [lia | apply _mem_bank_bit_lt_8] ].
Qed.

End Shapes.

(** ** The status read, in full *)

(** The tag field: bits 7..3 of the byte read. *)
Lemma fifo_data_out_tag_decode (b : byte) :
  RWBits_decode _fifo_data_out_tag [b] = byte_to_Z b / 8
  /\ 0 <= RWBits_decode _fifo_data_out_tag [b] <= 31.
Proof.
  destruct b; vm_compute; repeat split; discriminate.
Qed.

Section FullRuns.

Context {D : Type} `{I2CDevice D}.

Lemma _read_status_run (w : World D) :
  _read_status w =
  match write_then_readinto (device w) _LSM6DSV16X_FIFO_STATUS1 2 with
  | (d', Some f) =>
      (Ok (mkFIFOStatus (byte_to_Z (f 0%nat)) false false false false false),
       mkWorld d' (bus_log w ++ [EvRead _LSM6DSV16X_FIFO_STATUS1 2]) (stdout w))
  | (d', None) =>
      (Raise OSError,
       mkWorld d' (bus_log w ++ [EvRead _LSM6DSV16X_FIFO_STATUS1 2]) (stdout w))
  end.
Proof.
  unfold _read_status. unfold bind at 1. rewrite RWBits_get_run.
  cbn [register_address register_width _fifo_status1].
  destruct (write_then_readinto (device w) _LSM6DSV16X_FIFO_STATUS1 2)
    as [d' [f|]]; [|reflexivity].
  unfold ret. cbn [map seq]. rewrite fifo_status1_decode_pair.
  pose proof (byte_to_Z_range (f 0%nat)) as Hb.
  assert (Hlow : Z.land (byte_to_Z (f 0%nat)) 255 = byte_to_Z (f 0%nat)).
  { change 255 with (Z.ones 8). rewrite Z.land_ones by lia.
    apply Z.mod_small. simpl. lia. }
  rewrite <- Hlow at 1. rewrite FIFOStatus_of_low_byte, Hlow. reflexivity.
Qed.

(** The property, read by read. *)
Lemma quaternion_run (w : World D) :
  quaternion w =
  let log1 := bus_log w ++ [EvRead _LSM6DSV16X_FIFO_STATUS1 2] in
  let log2 := log1 ++ [EvRead _LSM6DSV16X_FIFO_DATA_OUT_X_L 6] in
  let log3 := log2 ++ [EvRead _LSM6DSV16X_FIFO_DATA_OUT_TAG 1] in
  match write_then_readinto (device w) _LSM6DSV16X_FIFO_STATUS1 2 with
  | (d1, None) => (Raise OSError, mkWorld d1 log1 (stdout w))
  | (d1, Some f1) =>
      match write_then_readinto d1 _LSM6DSV16X_FIFO_DATA_OUT_X_L 6 with
      | (d2, None) => (Raise OSError, mkWorld d2 log2 (stdout w))
      | (d2, Some f2) =>
          let out1 := stdout w ++ [("sample:"%string, VInt (byte_to_Z (f1 0%nat)))] in
          match write_then_readinto d2 _LSM6DSV16X_FIFO_DATA_OUT_TAG 1 with
          | (d3, None) => (Raise OSError, mkWorld d3 log3 out1)
          | (d3, Some f3) =>
              (Ok None,
               mkWorld d3 log3
                 ((out1 ++ [("tag:"%string, VInt (byte_to_Z (f3 0%nat) / 8))])
                    ++ [("data:"%string,
                         VTuple [ unpack_h (f2 0%nat) (f2 1%nat);
                                  unpack_h (f2 2%nat) (f2 3%nat);
                                  unpack_h (f2 4%nat) (f2 5%nat) ])]))
          end
      end
  end.
Proof.
  unfold quaternion. unfold bind at 1. rewrite _read_status_run.
  destruct (write_then_readinto (device w) _LSM6DSV16X_FIFO_STATUS1 2)
    as [d1 [f1|]]; [|reflexivity].
  unfold bind at 1. rewrite Struct_hhh_get_run. cbn [device bus_log stdout].
  destruct (write_then_readinto d1 _LSM6DSV16X_FIFO_DATA_OUT_X_L 6)
    as [d2 [f2|]]; [|reflexivity].
  unfold bind at 1. unfold print at 1. cbn [device bus_log stdout samples].
  unfold bind at 1. rewrite RWBits_get_run.
  cbn [device bus_log stdout register_address register_width
       _fifo_data_out_tag].
  destruct (write_then_readinto d2 _LSM6DSV16X_FIFO_DATA_OUT_TAG 1)
    as [d3 [f3|]]; [|reflexivity].
  cbn [map seq].
  rewrite (proj1 (fifo_data_out_tag_decode (f3 0%nat))). reflexivity.
Qed.

End FullRuns.

(** X1: the status read is exactly one two-byte read of FIFO_STATUS1.
    When the device fails it, the read raises [OSError]; otherwise it
    returns the first byte as the sample count with every flag false.
    Either way nothing is written to the bus and nothing is printed. *)
Theorem read_status_is_one_read :
  forall (D : Type) (dev : I2CDevice D) (w : World D),
    _read_status w =
    match write_then_readinto (device w) _LSM6DSV16X_FIFO_STATUS1 2 with
    | (d', Some f) =>
        (Ok (mkFIFOStatus (byte_to_Z (f 0%nat)) false false false false false),
         mkWorld d' (bus_log w ++ [EvRead _LSM6DSV16X_FIFO_STATUS1 2]) (stdout w))
    | (d', None) =>
        (Raise OSError,
         mkWorld d' (bus_log w ++ [EvRead _LSM6DSV16X_FIFO_STATUS1 2]) (stdout w))
    end.
Proof.
  intros D dev w. apply _read_status_run.
Qed.

(** X2: whatever the device does, the transactions of [_enable_sflp] are
    an initial segment of its twelve, read then write for each
    assignment in order, one byte each, carried out on the device one
    after the other.  When it returns they are all twelve and each
    succeeded; when it raises, which it does with [OSError] only, every
    one but the last succeeded and the last failed.  The device is left
    as the last of them left it, and nothing is printed. *)
Theorem enable_sflp_stops_at_first_failure :
  forall (D : Type) (dev : I2CDevice D) (base : LSM6DS)
         (w w' : World D) (r : result unit),
    _enable_sflp w = (r, w') ->
    stdout w' = stdout w
    /\ exists evs : list BusEvent,
        bus_log w' = bus_log w ++ evs
        /\ map event_shape evs = firstn (length evs) _enable_sflp_shapes
        /\ match r with
           | Ok _ =>
               length evs = 12%nat
               /\ replay (device w) evs = (device w', repeat true 12)
           | Raise e =>
               e = OSError /\ (1 <= length evs <= 12)%nat
               /\ replay (device w) evs
                  = (device w', repeat true (length evs - 1) ++ [false])
           end.
Proof.
  intros D dev base w w' r E. split; [exact (silent__enable_sflp _ _ _ E)|].
  destruct (follows__enable_sflp _ _ _ E) as (evs & L & S & R & N).
  exists evs. split; [exact L|]. split; [exact S|].
  destruct r as [u|e]; cbn [outcomes] in R.
  - change (length _enable_sflp_shapes) with 12%nat in N.
    split; [exact N|]. rewrite N in R. exact R.
  - destruct N as [-> N]. split; [reflexivity|]. split; [|exact R].
    split; [exact N|].
    apply (f_equal (@length _)) in S.
    rewrite length_map, length_firstn in S.
    change (length _enable_sflp_shapes) with 12%nat in S. lia.
Qed.

Lemma enable_sflp_stops_at_first_failure_witness :
  let w := start (mkMock [] [false; false; false; false; false; true]) in
  let run := @_enable_sflp Mock Mock_I2CDevice upstream_LSM6DS w in
  run = (Raise OSError, snd run)
  /\ stdout (snd run) = stdout w
  /\ exists evs : list BusEvent,
      bus_log (snd run) = bus_log w ++ evs
      /\ map event_shape evs
         = firstn (length evs) (@_enable_sflp_shapes upstream_LSM6DS)
      /\ (OSError = OSError /\ (1 <= length evs <= 12)%nat
          /\ replay (device w) evs
             = (device (snd run), repeat true (length evs - 1) ++ [false])).
Proof.
  intros w run.
  assert (Hrun : run = (Raise OSError, snd run)) by (vm_compute; reflexivity).
  split; [exact Hrun|].
  exact (enable_sflp_stops_at_first_failure Mock Mock_I2CDevice upstream_LSM6DS
           w (snd run) (Raise OSError) Hrun).
Defined.

(** X3: the property [quaternion] only reads: the status pair, then the
    six payload bytes, then the tag byte, each from the device the read
    before left.  It stops at the first read the device fails, raising
    [OSError]; when the device answers all three it returns [None]. *)
Theorem quaternion_reads_in_order :
  forall (D : Type) (dev : I2CDevice D) (w : World D),
    quaternion w =
    let log1 := bus_log w ++ [EvRead _LSM6DSV16X_FIFO_STATUS1 2] in
    let log2 := log1 ++ [EvRead _LSM6DSV16X_FIFO_DATA_OUT_X_L 6] in
    let log3 := log2 ++ [EvRead _LSM6DSV16X_FIFO_DATA_OUT_TAG 1] in
    match write_then_readinto (device w) _LSM6DSV16X_FIFO_STATUS1 2 with
    | (d1, None) => (Raise OSError, mkWorld d1 log1 (stdout w))
    | (d1, Some f1) =>
        match write_then_readinto d1 _LSM6DSV16X_FIFO_DATA_OUT_X_L 6 with
        | (d2, None) => (Raise OSError, mkWorld d2 log2 (stdout w))
        | (d2, Some f2) =>
            let out1 :=
              stdout w ++ [("sample:"%string, VInt (byte_to_Z (f1 0%nat)))] in
            match write_then_readinto d2 _LSM6DSV16X_FIFO_DATA_OUT_TAG 1 with
            | (d3, None) => (Raise OSError, mkWorld d3 log3 out1)
            | (d3, Some f3) =>
                (Ok None,
                 mkWorld d3 log3
                   ((out1 ++ [("tag:"%string, VInt (byte_to_Z (f3 0%nat) / 8))])
                      ++ [("data:"%string,
                           VTuple [ unpack_h (f2 0%nat) (f2 1%nat);
                                    unpack_h (f2 2%nat) (f2 3%nat);
                                    unpack_h (f2 4%nat) (f2 5%nat) ])]))
            end
        end
    end.
Proof.
  intros D dev w. apply quaternion_run.
Qed.



(** ** The decoding of the raw status *)

Lemma land_pow2_testbit (x k : Z) :
  0 <= k -> Z.land x (2 ^ k) = if Z.testbit x k then 2 ^ k else 0.
Proof.
  intros Hk. apply Z.bits_inj'. intros n Hn.
  rewrite Z.land_spec, Z.pow2_bits_eqb by exact Hk.
  destruct (Z.eqb_spec k n) as [->|Hkn].
  - destruct (Z.testbit x n).
    + rewrite Z.pow2_bits_true by exact Hn. reflexivity.
    + rewrite Z.bits_0. reflexivity.
  - rewrite andb_false_r. destruct (Z.testbit x k).
    + rewrite Z.pow2_bits_false by lia. reflexivity.
    + rewrite Z.bits_0. reflexivity.
Qed.

Lemma truthy_land_pow2 (x k : Z) :
  0 <= k -> truthy (Z.land x (2 ^ k)) = Z.testbit x k.
Proof.
  intros Hk. rewrite land_pow2_testbit by exact Hk. unfold truthy.
  destruct (Z.testbit x k); [|reflexivity].
  destruct (Z.eqb_spec (2 ^ k) 0) as [E|_]; [|reflexivity].
  pose proof (Z.pow_pos_nonneg 2 k). lia.
Qed.

(** X5: the statements of [_read_status] that follow the register read
    decode a raw value by the layout of the status word: the flags are
    its bits 15, 14, 13, 12 and 11, the sample count its low nine bits;
    putting the six fields back gives the raw value's bits at the
    fields' positions. *)
Theorem status_decoding_follows_bit_layout :
  forall raw : Z,
    wtm (FIFOStatus_of_raw raw) = Z.testbit raw 15
    /\ ovr (FIFOStatus_of_raw raw) = Z.testbit raw 14
    /\ full (FIFOStatus_of_raw raw) = Z.testbit raw 13
    /\ bdr (FIFOStatus_of_raw raw) = Z.testbit raw 12
    /\ ovr_latch (FIFOStatus_of_raw raw) = Z.testbit raw 11
    /\ samples (FIFOStatus_of_raw raw) = raw mod 512
    /\ word_of_status (FIFOStatus_of_raw raw) = Z.land raw FIELDS_BITMASK.
Proof.
  intros raw. unfold FIFOStatus_of_raw. cbn [wtm ovr full bdr ovr_latch samples].
  change WTM_BITMASK with (2 ^ 15). change OVR_BITMASK with (2 ^ 14).
  change FULL_BITMASK with (2 ^ 13). change BDR_BITMASK with (2 ^ 12).
  change OVR_LATCHED_BITMASK with (2 ^ 11).
  rewrite !truthy_land_pow2 by lia.
  repeat (split; [reflexivity|]). split.
  - change SAMPLES_BITMASK with (Z.ones 9). rewrite Z.land_ones by lia.
    reflexivity.
  - unfold word_of_status, FIELDS_BITMASK.
    cbn [wtm ovr full bdr ovr_latch samples].
    change WTM_BITMASK with (2 ^ 15). change OVR_BITMASK with (2 ^ 14).
    change FULL_BITMASK with (2 ^ 13). change BDR_BITMASK with (2 ^ 12).
    change OVR_LATCHED_BITMASK with (2 ^ 11).
    rewrite !Z.land_lor_distr_r.
    rewrite !(land_pow2_testbit raw) by lia. reflexivity.
Qed.

(** ** The enumerations, again *)

(** X6: the codes of the six rates are pairwise distinct, as are those
    of the seven FIFO modes, and the rate in Hz doubles from one code to
    the next, starting at 15. *)
Theorem enumeration_codes_identify_variants :
  (forall r1 r2 : SFLPRate, SFLPRate_value r1 = SFLPRate_value r2 -> r1 = r2)
  /\ (forall m1 m2 : FIFOMode, FIFOMode_value m1 = FIFOMode_value m2 -> m1 = m2)
  /\ (forall r : SFLPRate, SFLPRate_hz r = 15 * 2 ^ SFLPRate_value r).
Proof.
  split; [|split].
  - intros r1 r2. destruct r1, r2; vm_compute; intros E;
      first [reflexivity | discriminate E].
  - intros m1 m2. destruct m1, m2; vm_compute; intros E;
      first [reflexivity | discriminate E].
  - intros r. destruct r; reflexivity.
Qed.

Lemma enumeration_codes_identify_variants_witness :
  (SFLPRate_value RATE_60_HZ = SFLPRate_value RATE_60_HZ
   /\ RATE_60_HZ = RATE_60_HZ)
  /\ (FIFOMode_value LSM6DSV16X_FIFO_MODE = FIFOMode_value LSM6DSV16X_FIFO_MODE
      /\ LSM6DSV16X_FIFO_MODE = LSM6DSV16X_FIFO_MODE).
Proof.
  split.
  - split; [reflexivity|].
    exact (proj1 enumeration_codes_identify_variants _ _ eq_refl).
  - split; [reflexivity|].
    exact (proj1 (proj2 enumeration_codes_identify_variants) _ _ eq_refl).
Defined.

(** ** Enabling sensor fusion on the register file *)

Lemma bind_ok_eq {D A B} (m : M D A) (k : A -> M D B) w a w1 :
  m w = (Ok a, w1) -> bind m k w = k a w1.
Proof. intros E. unfold bind. rewrite E. reflexivity. Qed.

(** Without faults an assignment to a bit reads the register and stores
    it back with the bit changed. *)
Lemma Mock_RWBit_set a n value m log out :
  (n < 8)%nat ->
  RWBit_set (RWBit_new a n) value (mkWorld (mkMock m []) log out)
  = (Ok tt,
     mkWorld
       (mkMock ((a, RWBit_update (RWBit_new a n) value (peek m a)) :: m) [])
       (log ++ [ EvRead a 1;
                 EvWrite a [RWBit_update (RWBit_new a n) value (peek m a)] ])
       out).
Proof.
  intros Hn. rewrite RWBit_set_run by exact Hn.
  unfold bind, bus_read, bus_write.
  cbn [device bus_log stdout write_then_readinto write Mock_I2CDevice
       Mock_read Mock_write mem faults map seq hd poke Z.of_nat].
  rewrite Z.add_0_r, <- app_assoc. reflexivity.
Qed.

Lemma Mock_RWBits_set r value m log out :
  register_width r = 1%nat ->
  RWBits_set r value (mkWorld (mkMock m []) log out)
  = (Ok tt,
     mkWorld
       (mkMock ((register_address r,
                 hd x00 (scatter 1 (RWBits_encode r value
                                      [peek m (register_address r)]))) :: m) [])
       (log ++ [ EvRead (register_address r) 1;
                 EvWrite (register_address r)
                   (scatter 1 (RWBits_encode r value
                                 [peek m (register_address r)])) ])
       out).
Proof.
  intros Hw. unfold RWBits_set, bind, bus_read, bus_write. rewrite Hw.
  cbn [device bus_log stdout write_then_readinto write Mock_I2CDevice
       Mock_read Mock_write mem faults map seq hd poke scatter Z.of_nat].
  rewrite Z.add_0_r, <- app_assoc. reflexivity.
Qed.

Lemma sflp_registers_distinct `{LSM6DS} :
  NoDup sflp_registers ->
  _LSM6DS_FUNC_CFG_ACCESS <> _LSM6DSV16X_SFLP_ODR
  /\ _LSM6DS_FUNC_CFG_ACCESS <> _LSM6DSV16X_EMB_FUNC_FIFO_EN_A
  /\ _LSM6DS_FUNC_CFG_ACCESS <> _LSM6DSV16X_FIFO_CTRL4
  /\ _LSM6DS_FUNC_CFG_ACCESS <> _LSM6DS_EMB_FUNC_EN_A
  /\ _LSM6DS_EMB_FUNC_EN_A <> _LSM6DSV16X_SFLP_ODR
  /\ _LSM6DS_EMB_FUNC_EN_A <> _LSM6DSV16X_EMB_FUNC_FIFO_EN_A
  /\ _LSM6DS_EMB_FUNC_EN_A <> _LSM6DSV16X_FIFO_CTRL4.
Proof.
  unfold sflp_registers. intros Hnd.
  inversion Hnd as [|? ? Hc Hnd1]; subst.
  inversion Hnd1 as [|? ? Ho Hnd2]; subst.
  inversion Hnd2 as [|? ? Hf Hnd3]; subst.
  inversion Hnd3 as [|? ? Hm Hnd4]; subst.
  cbn [In] in Hc, Ho, Hf, Hm.
  repeat split; intros E; first [apply Hc | apply Ho | apply Hf | apply Hm];
    rewrite E; tauto.
Qed.

(** Without faults [_enable_sflp] returns, and every register then
    holds [enabled_cell] of what it held. *)
Lemma enable_sflp_on_register_file `{LSM6DS} (m : list (Z * byte)) :
  NoDup sflp_registers ->
  exists (m' : list (Z * byte)) (log' : list BusEvent),
    _enable_sflp (start (mkMock m [])) = (Ok tt, mkWorld (mkMock m' []) log' [])
    /\ forall a : Z, peek m' a = enabled_cell a (peek m a).
Proof.
  intros Hnd. apply sflp_registers_distinct in Hnd.
  destruct Hnd as (H1 & H2 & H3 & H4 & H5 & H6 & H7).
  pose proof _mem_bank_bit_lt_8 as Hbit.
  eexists _, _. split.
  - unfold _enable_sflp, start, _mem_bank, _sflp_batch, _sflp_en.
    erewrite bind_ok_eq by (apply Mock_RWBit_set; exact Hbit).
    erewrite bind_ok_eq by (apply (Mock_RWBits_set _sflp_data_rate); reflexivity).
    erewrite bind_ok_eq by (apply Mock_RWBit_set; lia).
    erewrite bind_ok_eq by (apply (Mock_RWBits_set _fifo_mode); reflexivity).
    erewrite bind_ok_eq by (apply Mock_RWBit_set; lia).
    rewrite Mock_RWBit_set by exact Hbit. reflexivity.
  - intros a. unfold enabled_cell, _mem_bank, _sflp_batch, _sflp_en.
    cbn [peek register_address _sflp_data_rate _fifo_mode].
    unfold _LSM6DSV16X_SFLP_ODR, _LSM6DSV16X_EMB_FUNC_FIFO_EN_A,
      _LSM6DSV16X_FIFO_CTRL4 in *.
    repeat match goal with
           | |- context [Z.eqb ?x ?y] =>
               destruct (Z.eqb_spec x y); try (exfalso; congruence);
               try (exfalso; lia); subst
           end; reflexivity.
Qed.

Lemma enabled_cell_cases `{LSM6DS} (cell : byte) :
  NoDup sflp_registers ->
  enabled_cell _LSM6DS_FUNC_CFG_ACCESS cell
  = RWBit_update _mem_bank 0 (RWBit_update _mem_bank 1 cell)
  /\ enabled_cell _LSM6DSV16X_SFLP_ODR cell
     = hd x00 (scatter 1 (RWBits_encode _sflp_data_rate
                            (SFLPRate_value RATE_120_HZ) [cell]))
  /\ enabled_cell _LSM6DSV16X_EMB_FUNC_FIFO_EN_A cell
     = RWBit_update _sflp_batch 1 cell
  /\ enabled_cell _LSM6DSV16X_FIFO_CTRL4 cell
     = hd x00 (scatter 1 (RWBits_encode _fifo_mode
                            (FIFOMode_value LSM6DSV16X_CONTINUOUS_MODE) [cell]))
  /\ enabled_cell _LSM6DS_EMB_FUNC_EN_A cell = RWBit_update _sflp_en 1 cell
  /\ forall a : Z, ~ In a sflp_registers -> enabled_cell a cell = cell.
Proof.
  intros Hnd. apply sflp_registers_distinct in Hnd.
  destruct Hnd as (H1 & H2 & H3 & H4 & H5 & H6 & H7).
  unfold enabled_cell, sflp_registers.
  unfold _LSM6DSV16X_SFLP_ODR, _LSM6DSV16X_EMB_FUNC_FIFO_EN_A,
    _LSM6DSV16X_FIFO_CTRL4 in *.
  repeat split; try intros a Ha; cbn [In] in *;
    repeat match goal with
           | |- context [Z.eqb ?x ?y] =>
               destruct (Z.eqb_spec x y); try (exfalso; congruence);
               try (exfalso; lia); try (exfalso; tauto)
           end; reflexivity.
Qed.

(** *** Bits left alone *)

Lemma RWBit_update_same_outside (a : Z) (n : nat) (value : Z) (cell : byte) :
  (n < 8)%nat ->
  same_outside (bit_mask_of (RWBit_new a n)) cell
               (RWBit_update (RWBit_new a n) value cell).
Proof.
  intros Hn. unfold same_outside, RWBit_update, bit_mask_of, RWBit_new.
  cbn [bit_number].
  destruct (Z.eqb value 0);
    do 8 (destruct n as [|n]; [destruct cell; vm_compute; reflexivity|]);
    exfalso; lia.
Qed.

Lemma same_outside_trans (mask : Z) (b1 b2 b3 : byte) :
  same_outside mask b1 b2 -> same_outside mask b2 b3 -> same_outside mask b1 b3.
Proof. unfold same_outside. intros E1 E2. rewrite E2. exact E1. Qed.

Lemma sflp_data_rate_same_outside (r : SFLPRate) (cell : byte) :
  same_outside (bit_mask _sflp_data_rate) cell
    (hd x00 (scatter 1 (RWBits_encode _sflp_data_rate (SFLPRate_value r) [cell]))).
Proof.
  unfold same_outside. destruct r; destruct cell; vm_compute; reflexivity.
Qed.

Lemma fifo_mode_same_outside (m : FIFOMode) (cell : byte) :
  same_outside (bit_mask _fifo_mode) cell
    (hd x00 (scatter 1 (RWBits_encode _fifo_mode (FIFOMode_value m) [cell]))).
Proof.
  unfold same_outside. destruct m; destruct cell; vm_compute; reflexivity.
Qed.

(** *** Assigning twice *)

Lemma RWBit_update_twice (a : Z) (n : nat) (v1 v2 : Z) (cell : byte) :
  (n < 8)%nat ->
  RWBit_update (RWBit_new a n) v2 (RWBit_update (RWBit_new a n) v1 cell)
  = RWBit_update (RWBit_new a n) v2 cell.
Proof.
  intros Hn. unfold RWBit_update, bit_mask_of, RWBit_new. cbn [bit_number].
  destruct (Z.eqb v1 0); destruct (Z.eqb v2 0);
    do 8 (destruct n as [|n]; [destruct cell; vm_compute; reflexivity|]);
    exfalso; lia.
Qed.

Lemma enabled_cell_twice `{LSM6DS} (a : Z) (cell : byte) :
  enabled_cell a (enabled_cell a cell) = enabled_cell a cell.
Proof.
  pose proof _mem_bank_bit_lt_8 as Hbit.
  unfold enabled_cell, _mem_bank, _sflp_batch, _sflp_en.
  destruct (Z.eqb a _LSM6DS_FUNC_CFG_ACCESS).
  { rewrite !RWBit_update_twice by exact Hbit. reflexivity. }
  destruct (Z.eqb a _LSM6DSV16X_SFLP_ODR).
  { destruct cell; vm_compute; reflexivity. }
  destruct (Z.eqb a _LSM6DSV16X_EMB_FUNC_FIFO_EN_A).
  { apply RWBit_update_twice. lia. }
  destruct (Z.eqb a _LSM6DSV16X_FIFO_CTRL4).
  { destruct cell; vm_compute; reflexivity. }
  destruct (Z.eqb a _LSM6DS_EMB_FUNC_EN_A).
  { apply RWBit_update_twice. lia. }
  reflexivity.
Qed.

(** X7: on a register file without faults whose five registers are
    distinct, [_enable_sflp] returns, and then the rate field reads the
    code of 120 Hz, the batch bit and the engine bit read true, the mode
    field reads the code of the continuous mode and the bank bit reads
    false, whatever the registers held before. *)
Theorem enable_sflp_sets_the_fields :
  forall (base : LSM6DS) (m : list (Z * byte)),
    NoDup sflp_registers ->
    exists (m' : list (Z * byte)) (log' : list BusEvent),
      _enable_sflp (start (mkMock m [])) = (Ok tt, mkWorld (mkMock m' []) log' [])
      /\ RWBits_decode _sflp_data_rate [peek m' _LSM6DSV16X_SFLP_ODR]
         = SFLPRate_value RATE_120_HZ
      /\ RWBit_decode _sflp_batch (peek m' _LSM6DSV16X_EMB_FUNC_FIFO_EN_A) = true
      /\ RWBits_decode _fifo_mode [peek m' _LSM6DSV16X_FIFO_CTRL4]
         = FIFOMode_value LSM6DSV16X_CONTINUOUS_MODE
      /\ RWBit_decode _sflp_en (peek m' _LSM6DS_EMB_FUNC_EN_A) = true
      /\ RWBit_decode _mem_bank (peek m' _LSM6DS_FUNC_CFG_ACCESS) = false.
Proof.
  intros base m Hnd.
  destruct (enable_sflp_on_register_file m Hnd) as (m' & log' & Hrun & Hpeek).
  exists m', log'. split; [exact Hrun|]. rewrite !Hpeek.
  split; [|split; [|split; [|split]]].
  - rewrite (proj1 (proj2 (enabled_cell_cases _ Hnd))).
    apply sflp_data_rate_readback.
  - rewrite (proj1 (proj2 (proj2 (enabled_cell_cases _ Hnd)))).
    apply (RWBit_readback _ 1). lia.
  - rewrite (proj1 (proj2 (proj2 (proj2 (enabled_cell_cases _ Hnd))))).
    apply fifo_mode_field_readback. vm_compute. split; discriminate.
  - rewrite (proj1 (proj2 (proj2 (proj2 (proj2 (enabled_cell_cases _ Hnd)))))).
    apply (RWBit_readback _ 1). lia.
  - rewrite (proj1 (enabled_cell_cases _ Hnd)).
    apply RWBit_readback, _mem_bank_bit_lt_8.
Qed.

Lemma upstream_registers_distinct : @NoDup Z (@sflp_registers upstream_LSM6DS).
Proof.
  repeat constructor; cbn; intros E;
    repeat (destruct E as [E|E]; [discriminate E|]); exact E.
Defined.

Lemma enable_sflp_sets_the_fields_witness :
  @NoDup Z (@sflp_registers upstream_LSM6DS)
  /\ exists (m' : list (Z * byte)) (log' : list BusEvent),
      @_enable_sflp Mock Mock_I2CDevice upstream_LSM6DS
        (start (mkMock [(0x5E, xff); (0x0A, xff); (0x01, xff)] []))
      = (Ok tt, mkWorld (mkMock m' []) log' [])
      /\ RWBits_decode _sflp_data_rate [peek m' 0x5E] = SFLPRate_value RATE_120_HZ
      /\ RWBit_decode _sflp_batch (peek m' 0x44) = true
      /\ RWBits_decode _fifo_mode [peek m' 0x0A]
         = FIFOMode_value LSM6DSV16X_CONTINUOUS_MODE
      /\ RWBit_decode (@_sflp_en upstream_LSM6DS) (peek m' 0x04) = true
      /\ RWBit_decode (@_mem_bank upstream_LSM6DS) (peek m' 0x01) = false.
Proof.
  split; [exact upstream_registers_distinct|].
  exact (enable_sflp_sets_the_fields upstream_LSM6DS
           [(0x5E, xff); (0x0A, xff); (0x01, xff)] upstream_registers_distinct).
Defined.

(** X8: on the same register file [_enable_sflp] changes nothing else:
    a register other than the five keeps its byte, and each of the five
    keeps every bit outside the field assigned. *)
Theorem enable_sflp_changes_nothing_else :
  forall (base : LSM6DS) (m : list (Z * byte)),
    NoDup sflp_registers ->
    exists (m' : list (Z * byte)) (log' : list BusEvent),
      _enable_sflp (start (mkMock m [])) = (Ok tt, mkWorld (mkMock m' []) log' [])
      /\ (forall a : Z, ~ In a sflp_registers -> peek m' a = peek m a)
      /\ same_outside (bit_mask_of _mem_bank)
           (peek m _LSM6DS_FUNC_CFG_ACCESS) (peek m' _LSM6DS_FUNC_CFG_ACCESS)
      /\ same_outside (bit_mask _sflp_data_rate)
           (peek m _LSM6DSV16X_SFLP_ODR) (peek m' _LSM6DSV16X_SFLP_ODR)
      /\ same_outside (bit_mask_of _sflp_batch)
           (peek m _LSM6DSV16X_EMB_FUNC_FIFO_EN_A)
           (peek m' _LSM6DSV16X_EMB_FUNC_FIFO_EN_A)
      /\ same_outside (bit_mask _fifo_mode)
           (peek m _LSM6DSV16X_FIFO_CTRL4) (peek m' _LSM6DSV16X_FIFO_CTRL4)
      /\ same_outside (bit_mask_of _sflp_en)
           (peek m _LSM6DS_EMB_FUNC_EN_A) (peek m' _LSM6DS_EMB_FUNC_EN_A).
Proof.
  intros base m Hnd.
  destruct (enable_sflp_on_register_file m Hnd) as (m' & log' & Hrun & Hpeek).
  exists m', log'. split; [exact Hrun|].
  split; [|rewrite !Hpeek; split; [|split; [|split; [|split]]]].
  - intros a Ha. rewrite Hpeek.
    exact (proj2 (proj2 (proj2 (proj2 (proj2 (enabled_cell_cases _ Hnd))))) a Ha).
  - rewrite (proj1 (enabled_cell_cases _ Hnd)).
    eapply same_outside_trans;
      apply RWBit_update_same_outside, _mem_bank_bit_lt_8.
  - rewrite (proj1 (proj2 (enabled_cell_cases _ Hnd))).
    apply sflp_data_rate_same_outside.
  - rewrite (proj1 (proj2 (proj2 (enabled_cell_cases _ Hnd)))).
    apply (RWBit_update_same_outside _ 1). lia.
  - rewrite (proj1 (proj2 (proj2 (proj2 (enabled_cell_cases _ Hnd))))).
    apply fifo_mode_same_outside.
  - rewrite (proj1 (proj2 (proj2 (proj2 (proj2 (enabled_cell_cases _ Hnd)))))).
    apply (RWBit_update_same_outside _ 1). lia.
Qed.

Lemma enable_sflp_changes_nothing_else_witness :
  @NoDup Z (@sflp_registers upstream_LSM6DS)
  /\ exists (m' : list (Z * byte)) (log' : list BusEvent),
      @_enable_sflp Mock Mock_I2CDevice upstream_LSM6DS
        (start (mkMock [(0x5E, xff); (0x10, x5a); (0x01, xff)] []))
      = (Ok tt, mkWorld (mkMock m' []) log' [])
      /\ (forall a : Z, ~ In a (@sflp_registers upstream_LSM6DS) ->
                        peek m' a = peek [(0x5E, xff); (0x10, x5a); (0x01, xff)] a).
Proof.
  split; [exact upstream_registers_distinct|].
  destruct (enable_sflp_changes_nothing_else upstream_LSM6DS
              [(0x5E, xff); (0x10, x5a); (0x01, xff)]
              upstream_registers_distinct)
    as (m' & log' & Hrun & Hframe & _).
  exists m', log'. split; [exact Hrun|exact Hframe].
Defined.

(** X9: on the same register file a second [_enable_sflp] right after
    the first leaves every register as the first left it. *)
Theorem enable_sflp_twice_is_once :
  forall (base : LSM6DS) (m : list (Z * byte)),
    NoDup sflp_registers ->
    exists (m1 m2 : list (Z * byte)) (log1 log2 : list BusEvent),
      _enable_sflp (start (mkMock m [])) = (Ok tt, mkWorld (mkMock m1 []) log1 [])
      /\ _enable_sflp (start (mkMock m1 []))
         = (Ok tt, mkWorld (mkMock m2 []) log2 [])
      /\ forall a : Z, peek m2 a = peek m1 a.
Proof.
  intros base m Hnd.
  destruct (enable_sflp_on_register_file m Hnd) as (m1 & log1 & Hrun1 & Hpeek1).
  destruct (enable_sflp_on_register_file m1 Hnd) as (m2 & log2 & Hrun2 & Hpeek2).
  exists m1, m2, log1, log2. split; [exact Hrun1|]. split; [exact Hrun2|].
  intros a. rewrite Hpeek2, Hpeek1. apply enabled_cell_twice.
Qed.

Lemma enable_sflp_twice_is_once_witness :
  @NoDup Z (@sflp_registers upstream_LSM6DS)
  /\ exists (m1 m2 : list (Z * byte)) (log1 log2 : list BusEvent),
      @_enable_sflp Mock Mock_I2CDevice upstream_LSM6DS
        (start (mkMock [(0x5E, xff); (0x01, x7f)] []))
      = (Ok tt, mkWorld (mkMock m1 []) log1 [])
      /\ @_enable_sflp Mock Mock_I2CDevice upstream_LSM6DS (start (mkMock m1 []))
         = (Ok tt, mkWorld (mkMock m2 []) log2 [])
      /\ forall a : Z, peek m2 a = peek m1 a.
Proof.
  split; [exact upstream_registers_distinct|].
  exact (enable_sflp_twice_is_once upstream_LSM6DS
           [(0x5E, xff); (0x01, x7f)] upstream_registers_distinct).
Defined.

(** ** A failed configuration on the register file *)

Lemma preserves_cell_bind {A B} c (m : M Mock A) (k : A -> M Mock B) :
  preserves_cell c m -> (forall a, preserves_cell c (k a)) ->
  preserves_cell c (bind m k).
Proof.
  intros Hm Hk w r w' E. unfold bind in E.
  destruct (m w) as [[a|e] w1] eqn:Em.
  - rewrite (Hk _ _ _ _ E). exact (Hm _ _ _ Em).
  - inversion E; subst. exact (Hm _ _ _ Em).
Qed.

(** A read, failed or not, stores nothing. *)
Lemma preserves_cell_bus_read c a n : preserves_cell c (bus_read a n).
Proof.
  intros w r w' E. unfold bus_read in E.
  cbn [write_then_readinto Mock_I2CDevice] in E. unfold Mock_read in E.
  destruct (faults (device w)) as [|[|] fs]; inversion E; reflexivity.
Qed.

(** A one-byte write stores at its own register only, and nothing when
    it fails. *)
Lemma preserves_cell_bus_write c a b :
  a <> c -> preserves_cell c (bus_write a [b]).
Proof.
  intros Hac w r w' E. unfold bus_write in E.
  cbn [write Mock_I2CDevice] in E. unfold Mock_write in E.
  apply Z.eqb_neq in Hac.
  destruct (faults (device w)) as [|[|] fs]; inversion E;
    cbn [device mem poke peek]; rewrite ?Hac; reflexivity.
Qed.

Lemma preserves_cell_RWBit_set c a n value :
  (n < 8)%nat -> a <> c -> preserves_cell c (RWBit_set (RWBit_new a n) value).
Proof.
  intros Hn Hac w r w' E. rewrite RWBit_set_run in E by exact Hn.
  revert w r w' E. apply preserves_cell_bind.
  - apply preserves_cell_bus_read.
  - intros bs. apply preserves_cell_bus_write. exact Hac.
Qed.

Lemma preserves_cell_RWBits_set c r value :
  register_width r = 1%nat -> register_address r <> c ->
  preserves_cell c (RWBits_set r value).
Proof.
  intros Hw Hac. unfold RWBits_set. rewrite Hw. apply preserves_cell_bind.
  - apply preserves_cell_bus_read.
  - intros bs. cbn [scatter]. apply preserves_cell_bus_write. exact Hac.
Qed.

Lemma preserves_cell_sflp_configuration `{LSM6DS} :
  ~ In _LSM6DS_FUNC_CFG_ACCESS
       [ _LSM6DSV16X_SFLP_ODR; _LSM6DSV16X_EMB_FUNC_FIFO_EN_A;
         _LSM6DSV16X_FIFO_CTRL4; _LSM6DS_EMB_FUNC_EN_A ] ->
  preserves_cell _LSM6DS_FUNC_CFG_ACCESS sflp_configuration.
Proof.
  intros Hc. cbn [In] in Hc. unfold sflp_configuration, _sflp_batch, _sflp_en.
  repeat (apply preserves_cell_bind; [|intros _]);
    first [ apply preserves_cell_RWBits_set; [reflexivity|]
          | apply preserves_cell_RWBit_set; [lia|] ];
    cbn [register_address _sflp_data_rate _fifo_mode]; intros E; apply Hc;
    rewrite E; tauto.
Qed.

(** An assignment to a bit that returned has stored the register with
    the bit changed. *)
Lemma Mock_RWBit_set_stores a n value (w w1 : World Mock) (u : unit) :
  (n < 8)%nat ->
  RWBit_set (RWBit_new a n) value w = (Ok u, w1) ->
  peek (mem (device w1)) a
  = RWBit_update (RWBit_new a n) value (peek (mem (device w)) a).
Proof.
  intros Hn E. rewrite RWBit_set_run in E by exact Hn.
  unfold bind, bus_read, bus_write in E.
  cbn [write_then_readinto write Mock_I2CDevice] in E.
  unfold Mock_read, Mock_write in E.
  destruct w as [[m fs] log out].
  destruct fs as [|[|] [|[|] fs]];
    cbn [device mem faults map seq hd poke Z.of_nat] in E;
    inversion E; subst; clear E;
    cbn [device mem peek]; rewrite Z.eqb_refl, Z.add_0_r; reflexivity.
Qed.

(** X10: on a register file, with whatever faults, whose bank register
    is none of the four configuration registers: when the bank entry
    has succeeded and a configuration write fails, [_enable_sflp] raises
    [OSError] and the bank bit of the device still reads true. *)
Theorem failed_configuration_leaves_embedded_bank :
  forall (base : LSM6DS) (w w1 w2 : World Mock) (u : unit) (e : exn),
    ~ In _LSM6DS_FUNC_CFG_ACCESS
         [ _LSM6DSV16X_SFLP_ODR; _LSM6DSV16X_EMB_FUNC_FIFO_EN_A;
           _LSM6DSV16X_FIFO_CTRL4; _LSM6DS_EMB_FUNC_EN_A ] ->
    RWBit_set _mem_bank 1 w = (Ok u, w1) ->
    sflp_configuration w1 = (Raise e, w2) ->
    _enable_sflp w = (Raise OSError, w2)
    /\ RWBit_decode _mem_bank (peek (mem (device w2)) _LSM6DS_FUNC_CFG_ACCESS)
       = true.
Proof.
  intros base w w1 w2 u e Hc E1 E2. split.
  - rewrite _enable_sflp_parts. unfold bind. rewrite E1, E2.
    rewrite (only_OSError_sflp_configuration _ _ _ E2). reflexivity.
  - rewrite (preserves_cell_sflp_configuration Hc _ _ _ E2).
    unfold _mem_bank in E1 |- *.
    rewrite (Mock_RWBit_set_stores _ _ _ _ _ _ _mem_bank_bit_lt_8 E1).
    apply RWBit_readback, _mem_bank_bit_lt_8.
Qed.

Lemma failed_configuration_leaves_embedded_bank_witness :
  let w := start (mkMock [(0x01, x00)]
                    [false; false; false; false; false; false; false; true]) in
  let w1 := snd (RWBit_set (@_mem_bank upstream_LSM6DS) 1 w) in
  let w2 := snd (@sflp_configuration Mock Mock_I2CDevice upstream_LSM6DS w1) in
  ~ In 0x01 [0x5E; 0x44; 0x0A; 0x04]
  /\ RWBit_set (@_mem_bank upstream_LSM6DS) 1 w = (Ok tt, w1)
  /\ @sflp_configuration Mock Mock_I2CDevice upstream_LSM6DS w1
     = (Raise OSError, w2)
  /\ @_enable_sflp Mock Mock_I2CDevice upstream_LSM6DS w = (Raise OSError, w2)
  /\ RWBit_decode (@_mem_bank upstream_LSM6DS) (peek (mem (device w2)) 0x01)
     = true.
Proof.
  intros w w1 w2.
  assert (Hc : ~ In 0x01 [0x5E; 0x44; 0x0A; 0x04]).
  { cbn. intros E. repeat (destruct E as [E|E]; [discriminate E|]). exact E. }
  assert (E1 : RWBit_set (@_mem_bank upstream_LSM6DS) 1 w = (Ok tt, w1))
    by (vm_compute; reflexivity).
  assert (E2 : @sflp_configuration Mock Mock_I2CDevice upstream_LSM6DS w1
               = (Raise OSError, w2)) by (vm_compute; reflexivity).
  split; [exact Hc|]. split; [exact E1|]. split; [exact E2|].
  exact (failed_configuration_leaves_embedded_bank upstream_LSM6DS
           w w1 w2 tt OSError Hc E1 E2).
Defined.

(** ** The assignments of [_enable_sflp] on the device *)

Section Assignments.

Context {D : Type} `{I2CDevice D}.

(** An assignment to a bit of an 8-bit register that returned was
    carried out on the device. *)
Lemma RWBit_set_assigned a n value (w w' : World D) (u : unit) :
  (n < 8)%nat ->
  RWBit_set (RWBit_new a n) value w = (Ok u, w') ->
  exists cell : byte,
    assigned (device w) a (RWBit_update (RWBit_new a n) value) (device w') cell
    /\ bus_log w' = bus_log w ++ [EvRead a 1; EvWrite a [cell]]
    /\ stdout w' = stdout w.
Proof.
  intros Hn E. rewrite RWBit_set_run in E by exact Hn.
  apply bind_ok in E. destruct E as (bs & w1 & E1 & E2).
  apply bus_read_ok in E1. destruct E1 as (f & Hf & -> & L1 & O1).
  apply bus_write_ok in E2. destruct E2 as (Hw & L2 & O2).
  cbn [map seq hd] in *.
  exists (RWBit_update (RWBit_new a n) value (f 0%nat)). split; [|split].
  - exists f, (device w1). repeat split; assumption.
  - rewrite L2, L1, <- app_assoc. reflexivity.
  - congruence.
Qed.

(** So was an assignment to a field of a one-byte register. *)
Lemma RWBits_set_assigned r value (w w' : World D) (u : unit) :
  register_width r = 1%nat ->
  RWBits_set r value w = (Ok u, w') ->
  exists cell : byte,
    assigned (device w) (register_address r) (RWBits_update r value)
             (device w') cell
    /\ bus_log w' = bus_log w
         ++ [EvRead (register_address r) 1; EvWrite (register_address r) [cell]]
    /\ stdout w' = stdout w.
Proof.
  intros Hr E. unfold RWBits_set in E. rewrite Hr in E.
  apply bind_ok in E. destruct E as (bs & w1 & E1 & E2).
  apply bus_read_ok in E1. destruct E1 as (f & Hf & -> & L1 & O1).
  apply bus_write_ok in E2. destruct E2 as (Hw & L2 & O2).
  cbn [map seq scatter] in *.
  exists (RWBits_update r value (f 0%nat)). split; [|split].
  - exists f, (device w1). repeat split; assumption.
  - rewrite L2, L1, <- app_assoc. reflexivity.
  - congruence.
Qed.

(** A run of [_enable_sflp] that returns carried out its six
    assignments on the device, each on the device the one before left. *)
Lemma _enable_sflp_assigned `{LSM6DS} (w w' : World D) (u : unit) :
  _enable_sflp w = (Ok u, w') ->
  exists (enter rate batch mode engine leave : byte) (d1 d2 d3 d4 d5 : D),
    assigned (device w) _LSM6DS_FUNC_CFG_ACCESS
             (RWBit_update _mem_bank 1) d1 enter
    /\ assigned d1 _LSM6DSV16X_SFLP_ODR
         (RWBits_update _sflp_data_rate (SFLPRate_value RATE_120_HZ)) d2 rate
    /\ assigned d2 _LSM6DSV16X_EMB_FUNC_FIFO_EN_A
         (RWBit_update _sflp_batch 1) d3 batch
    /\ assigned d3 _LSM6DSV16X_FIFO_CTRL4
         (RWBits_update _fifo_mode (FIFOMode_value LSM6DSV16X_CONTINUOUS_MODE))
         d4 mode
    /\ assigned d4 _LSM6DS_EMB_FUNC_EN_A (RWBit_update _sflp_en 1) d5 engine
    /\ assigned d5 _LSM6DS_FUNC_CFG_ACCESS
         (RWBit_update _mem_bank 0) (device w') leave
    /\ bus_log w' = bus_log w ++
         [ EvRead _LSM6DS_FUNC_CFG_ACCESS 1;
           EvWrite _LSM6DS_FUNC_CFG_ACCESS [enter];
           EvRead _LSM6DSV16X_SFLP_ODR 1;
           EvWrite _LSM6DSV16X_SFLP_ODR [rate];
           EvRead _LSM6DSV16X_EMB_FUNC_FIFO_EN_A 1;
           EvWrite _LSM6DSV16X_EMB_FUNC_FIFO_EN_A [batch];
           EvRead _LSM6DSV16X_FIFO_CTRL4 1;
           EvWrite _LSM6DSV16X_FIFO_CTRL4 [mode];
           EvRead _LSM6DS_EMB_FUNC_EN_A 1;
           EvWrite _LSM6DS_EMB_FUNC_EN_A [engine];
           EvRead _LSM6DS_FUNC_CFG_ACCESS 1;
           EvWrite _LSM6DS_FUNC_CFG_ACCESS [leave] ].
Proof.
  intros E. unfold _enable_sflp in E.
  first_statement E E1. first_statement E E2. first_statement E E3.
  first_statement E E4. first_statement E E5. rename E into E6.
  apply RWBit_set_assigned in E1; [|apply _mem_bank_bit_lt_8].
  apply RWBits_set_assigned in E2; [|reflexivity].
  apply RWBit_set_assigned in E3; [|lia].
  apply RWBits_set_assigned in E4; [|reflexivity].
  apply RWBit_set_assigned in E5; [|lia].
  apply RWBit_set_assigned in E6; [|apply _mem_bank_bit_lt_8].
  destruct E1 as (c1 & A1 & L1 & _). destruct E2 as (c2 & A2 & L2 & _).
  destruct E3 as (c3 & A3 & L3 & _). destruct E4 as (c4 & A4 & L4 & _).
  destruct E5 as (c5 & A5 & L5 & _). destruct E6 as (c6 & A6 & L6 & _).
  eexists c1, c2, c3, c4, c5, c6, _, _, _, _, _.
  split; [exact A1|]. split; [exact A2|]. split; [exact A3|].
  split; [exact A4|]. split; [exact A5|]. split; [exact A6|].
  rewrite L6, L5, L4, L3, L2, L1. repeat rewrite <- app_assoc. reflexivity.
Qed.

(** What was assigned reads back from the cell written. *)
Lemma assigned_cell (d d' : D) a upd cell :
  assigned d a upd d' cell -> exists old : byte, cell = upd old.
Proof. intros (f & d1 & _ & -> & _). exists (f 0%nat). reflexivity. Qed.

End Assignments.

(** C4: a run of [_enable_sflp] that returns carried out on the device
    exactly these transactions, in this order, each on the device the
    one before left: the read of the bank register and the write that
    sets the bank bit; read and write of the output data rate, of the
    batch enable, of the FIFO mode and of the engine enable; the read of
    the bank register and the write that clears the bank bit.  Each
    write sends the byte just read with the field changed, every one
    succeeds, and there is no other transaction. *)
Theorem C4_enable_sflp_write_order :
  forall (D : Type) (dev : I2CDevice D) (base : LSM6DS)
         (w w' : World D) (u : unit),
    _enable_sflp w = (Ok u, w') ->
    exists (enter rate batch mode engine leave : byte) (d1 d2 d3 d4 d5 : D),
      assigned (device w) _LSM6DS_FUNC_CFG_ACCESS
               (RWBit_update _mem_bank 1) d1 enter
      /\ assigned d1 _LSM6DSV16X_SFLP_ODR
           (RWBits_update _sflp_data_rate (SFLPRate_value RATE_120_HZ)) d2 rate
      /\ assigned d2 _LSM6DSV16X_EMB_FUNC_FIFO_EN_A
           (RWBit_update _sflp_batch 1) d3 batch
      /\ assigned d3 _LSM6DSV16X_FIFO_CTRL4
           (RWBits_update _fifo_mode
              (FIFOMode_value LSM6DSV16X_CONTINUOUS_MODE)) d4 mode
      /\ assigned d4 _LSM6DS_EMB_FUNC_EN_A (RWBit_update _sflp_en 1) d5 engine
      /\ assigned d5 _LSM6DS_FUNC_CFG_ACCESS
           (RWBit_update _mem_bank 0) (device w') leave
      /\ bus_log w' = bus_log w ++
           [ EvRead _LSM6DS_FUNC_CFG_ACCESS 1;
             EvWrite _LSM6DS_FUNC_CFG_ACCESS [enter];
             EvRead _LSM6DSV16X_SFLP_ODR 1;
             EvWrite _LSM6DSV16X_SFLP_ODR [rate];
             EvRead _LSM6DSV16X_EMB_FUNC_FIFO_EN_A 1;
             EvWrite _LSM6DSV16X_EMB_FUNC_FIFO_EN_A [batch];
             EvRead _LSM6DSV16X_FIFO_CTRL4 1;
             EvWrite _LSM6DSV16X_FIFO_CTRL4 [mode];
             EvRead _LSM6DS_EMB_FUNC_EN_A 1;
             EvWrite _LSM6DS_EMB_FUNC_EN_A [engine];
             EvRead _LSM6DS_FUNC_CFG_ACCESS 1;
             EvWrite _LSM6DS_FUNC_CFG_ACCESS [leave] ]
      /\ RWBit_decode _mem_bank enter = true
      /\ RWBits_decode _sflp_data_rate [rate] = SFLPRate_value RATE_120_HZ
      /\ RWBit_decode _sflp_batch batch = true
      /\ RWBits_decode _fifo_mode [mode]
         = FIFOMode_value LSM6DSV16X_CONTINUOUS_MODE
      /\ RWBit_decode _sflp_en engine = true
      /\ RWBit_decode _mem_bank leave = false.
Proof.
  intros D dev base w w' u E.
  apply _enable_sflp_assigned in E.
  destruct E as (c1 & c2 & c3 & c4 & c5 & c6 & d1 & d2 & d3 & d4 & d5
                 & A1 & A2 & A3 & A4 & A5 & A6 & L).
  exists c1, c2, c3, c4, c5, c6, d1, d2, d3, d4, d5.
  split; [exact A1|]. split; [exact A2|]. split; [exact A3|].
  split; [exact A4|]. split; [exact A5|]. split; [exact A6|].
  split; [exact L|].
  destruct (assigned_cell _ _ _ _ _ A1) as (o1 & ->).
  destruct (assigned_cell _ _ _ _ _ A2) as (o2 & ->).
  destruct (assigned_cell _ _ _ _ _ A3) as (o3 & ->).
  destruct (assigned_cell _ _ _ _ _ A4) as (o4 & ->).
  destruct (assigned_cell _ _ _ _ _ A5) as (o5 & ->).
  destruct (assigned_cell _ _ _ _ _ A6) as (o6 & ->).
  split; [apply RWBit_readback, _mem_bank_bit_lt_8|].
  split; [apply sflp_data_rate_readback|].
  split; [apply (RWBit_readback _ 1); lia|].
  split; [apply fifo_mode_field_readback; vm_compute; split; discriminate|].
  split; [apply (RWBit_readback _ 1); lia|].
  apply RWBit_readback, _mem_bank_bit_lt_8.
Qed.

Lemma C4_witness :
  let w := start (mkMock [] []) in
  let run := @_enable_sflp Mock Mock_I2CDevice upstream_LSM6DS w in
  run = (Ok tt, snd run)
  /\ exists (enter rate batch mode engine leave : byte) (d1 d2 d3 d4 d5 : Mock),
      assigned (device w) 0x01 (RWBit_update (@_mem_bank upstream_LSM6DS) 1)
               d1 enter
      /\ assigned d1 0x5E
           (RWBits_update _sflp_data_rate (SFLPRate_value RATE_120_HZ)) d2 rate
      /\ assigned d2 0x44 (RWBit_update _sflp_batch 1) d3 batch
      /\ assigned d3 0x0A
           (RWBits_update _fifo_mode
              (FIFOMode_value LSM6DSV16X_CONTINUOUS_MODE)) d4 mode
      /\ assigned d4 0x04 (RWBit_update (@_sflp_en upstream_LSM6DS) 1)
           d5 engine
      /\ assigned d5 0x01 (RWBit_update (@_mem_bank upstream_LSM6DS) 0)
           (device (snd run)) leave
      /\ bus_log (snd run) = bus_log w ++
           [ EvRead 0x01 1; EvWrite 0x01 [enter];
             EvRead 0x5E 1; EvWrite 0x5E [rate];
             EvRead 0x44 1; EvWrite 0x44 [batch];
             EvRead 0x0A 1; EvWrite 0x0A [mode];
             EvRead 0x04 1; EvWrite 0x04 [engine];
             EvRead 0x01 1; EvWrite 0x01 [leave] ]
      /\ RWBit_decode (@_mem_bank upstream_LSM6DS) enter = true
      /\ RWBits_decode _sflp_data_rate [rate] = SFLPRate_value RATE_120_HZ
      /\ RWBit_decode _sflp_batch batch = true
      /\ RWBits_decode _fifo_mode [mode]
         = FIFOMode_value LSM6DSV16X_CONTINUOUS_MODE
      /\ RWBit_decode (@_sflp_en upstream_LSM6DS) engine = true
      /\ RWBit_decode (@_mem_bank upstream_LSM6DS) leave = false.
Proof.
  intros w run.
  assert (Hrun : run = (Ok tt, snd run)) by (vm_compute; reflexivity).
  split; [exact Hrun|].
  exact (C4_enable_sflp_write_order Mock Mock_I2CDevice upstream_LSM6DS
           w (snd run) tt Hrun).
Defined.

(** C9: the rates 15, 30, 60, 120, 240 and 480 Hz have the codes 0 to 5,
    each within the 3-bit rate field.  A run of [_enable_sflp] that
    returns has, right after the bank entry, read register 0x5E on the
    device and written it back with the code of 120 Hz in that field,
    and the write succeeded; on a register file without faults whose
    five registers are distinct the field of register 0x5E reads that
    code after the run, whatever the registers held. *)
Theorem C9_rate_codes_and_default_rate :
  map (fun r => (SFLPRate_hz r, SFLPRate_value r)) all_SFLPRate
  = [(15, 0); (30, 1); (60, 2); (120, 3); (240, 4); (480, 5)]
  /\ (forall r : SFLPRate, 0 <= SFLPRate_value r < 2 ^ num_bits _sflp_data_rate)
  /\ (forall (D : Type) (dev : I2CDevice D) (base : LSM6DS)
             (w w' : World D) (u : unit),
         _enable_sflp w = (Ok u, w') ->
         exists (enter cell : byte) (d1 d2 : D) (post : list BusEvent),
           assigned (device w) _LSM6DS_FUNC_CFG_ACCESS
                    (RWBit_update _mem_bank 1) d1 enter
           /\ assigned d1 0x5E
                (RWBits_update _sflp_data_rate (SFLPRate_value RATE_120_HZ))
                d2 cell
           /\ bus_log w' = bus_log w ++
                [ EvRead _LSM6DS_FUNC_CFG_ACCESS 1;
                  EvWrite _LSM6DS_FUNC_CFG_ACCESS [enter];
                  EvRead 0x5E 1;
                  EvWrite 0x5E [cell] ] ++ post
           /\ RWBits_decode _sflp_data_rate [cell] = SFLPRate_value RATE_120_HZ
           /\ SFLPRate_hz RATE_120_HZ = 120)
  /\ (forall (base : LSM6DS) (m : list (Z * byte)),
         NoDup sflp_registers ->
         exists (m' : list (Z * byte)) (log' : list BusEvent),
           _enable_sflp (start (mkMock m []))
           = (Ok tt, mkWorld (mkMock m' []) log' [])
           /\ RWBits_decode _sflp_data_rate [peek m' 0x5E]
              = SFLPRate_value RATE_120_HZ).
Proof.
  split; [reflexivity|]. split; [|split].
  - intros r. destruct r; vm_compute; split; first [discriminate | reflexivity].
  - intros D dev base w w' u E.
    apply _enable_sflp_assigned in E.
    destruct E as (c1 & c2 & c3 & c4 & c5 & c6 & d1 & d2 & d3 & d4 & d5
                   & A1 & A2 & _ & _ & _ & _ & L).
    exists c1, c2, d1, d2. eexists. split; [exact A1|]. split; [exact A2|].
    split; [exact L|].
    destruct (assigned_cell _ _ _ _ _ A2) as (o2 & ->).
    split; [apply sflp_data_rate_readback|reflexivity].
  - intros base m Hnd.
    destruct (enable_sflp_on_register_file m Hnd) as (m' & log' & Hrun & Hpeek).
    exists m', log'. split; [exact Hrun|].
    change 0x5E with _LSM6DSV16X_SFLP_ODR.
    rewrite Hpeek, (proj1 (proj2 (enabled_cell_cases _ Hnd))).
    apply sflp_data_rate_readback.
Qed.

Lemma C9_witness :
  let w := start (mkMock [(0x5E, xff)] []) in
  let run := @_enable_sflp Mock Mock_I2CDevice upstream_LSM6DS w in
  (run = (Ok tt, snd run)
   /\ exists (enter cell : byte) (d1 d2 : Mock) (post : list BusEvent),
       assigned (device w) 0x01 (RWBit_update (@_mem_bank upstream_LSM6DS) 1)
                d1 enter
       /\ assigned d1 0x5E
            (RWBits_update _sflp_data_rate (SFLPRate_value RATE_120_HZ))
            d2 cell
       /\ bus_log (snd run) = bus_log w ++
            [ EvRead 0x01 1; EvWrite 0x01 [enter];
              EvRead 0x5E 1; EvWrite 0x5E [cell] ] ++ post
       /\ RWBits_decode _sflp_data_rate [cell] = SFLPRate_value RATE_120_HZ
       /\ SFLPRate_hz RATE_120_HZ = 120)
  /\ (@NoDup Z (@sflp_registers upstream_LSM6DS)
      /\ exists (m' : list (Z * byte)) (log' : list BusEvent),
          run = (Ok tt, mkWorld (mkMock m' []) log' [])
          /\ RWBits_decode _sflp_data_rate [peek m' 0x5E]
             = SFLPRate_value RATE_120_HZ).
Proof.
  intros w run.
  assert (Hrun : run = (Ok tt, snd run)) by (vm_compute; reflexivity).
  split.
  - split; [exact Hrun|].
    exact (proj1 (proj2 (proj2 C9_rate_codes_and_default_rate))
             Mock Mock_I2CDevice upstream_LSM6DS w (snd run) tt Hrun).
  - split; [exact upstream_registers_distinct|].
    exact (proj2 (proj2 (proj2 C9_rate_codes_and_default_rate))
             upstream_LSM6DS [(0x5E, xff)] upstream_registers_distinct).
Defined.
